(** * The Criteo CSV-to-Parquet conversion notebook, and the rmm calls of the
    training notebook

    A shallow embedding of the code cells of the conversion notebook
    (Steps 2 to 6) and of the two [rmm.reinitialize] cells of the
    training notebook.  Python values are modelled by the inductive types
    below, the Dask task dictionary by a [gmap], library calls by events
    appended to a trace, and the libraries themselves (Dask's [tokenize],
    [natural_sort_key] and [_analyze_paths], cudf's writer and metadata
    merge, NVTabular's file iterator and [device_mem_size]) by the fields
    of one record of externals. *)

From Stdlib Require Import Ascii String QArith_base.
From stdpp Require Import gmap strings list fin_maps pretty sorting.

Local Open Scope string_scope.
Local Open Scope list_scope.
Local Open Scope nat_scope.
#[local] Set Warnings "-clear-no-such-hyp".

(** ** Python strings *)

Module PyStr.

(** [sep.join(l)] *)
Fixpoint join (sep : string) (l : list string) : string :=
  match l with
  | [] => ""
  | x :: r =>
      match r with
      | [] => x
      | _ :: _ => x +:+ sep +:+ join sep r
      end
  end.

(** [s.endswith(suf)]: [suf] is [s] or a suffix of the tail of [s]. *)
Fixpoint endswith (s suf : string) : bool :=
  bool_decide (s = suf) ||
  match s with
  | EmptyString => false
  | String _ r => endswith r suf
  end.

(** [s.split(c)] for a separator of one character. *)
Fixpoint split (c : ascii) (s : string) : list string :=
  match s with
  | EmptyString => [""]
  | String a r =>
      if bool_decide (a = c) then "" :: split c r
      else match split c r with
           | x :: l => String a x :: l
           | [] => [String a ""]
           end
  end.

(** number of occurrences of [c] in [s] *)
Fixpoint count (c : ascii) (s : string) : nat :=
  match s with
  | EmptyString => 0
  | String a r => (if bool_decide (a = c) then 1 else 0) + count c r
  end.

(** [str(n)] for a natural number *)
Definition str (n : nat) : string := pretty n.

End PyStr.

(** ** Python values that occur in the task graph *)

(** The file system object [fs]: its separator and its [glob] method, which
    reads the set of paths that exist when it is called. *)
Record filesystem := FileSystem {
  sep : string;
  glob : gset string → string → list string
}.

(** values of the [dtypes] dictionary: the type [np.int64] or a string *)
Inductive dtype :=
  | np_int64
  | dt_str (s : string).

#[warnings="-register-all"]
Inductive pyval :=
  | VStr (s : string)
  | VFloat (q : Q)
  | VTuple (s : string) (i : nat)
  | VList (l : list pyval)
  | VDict (d : gmap string dtype)
  | VFs (fs : filesystem).

(** A key of a Dask graph: a string, or a tuple of a string and an index. *)
Inductive key :=
  | KStr (s : string)
  | KTup (s : string) (i : nat).

Global Instance key_eq_dec : EqDecision key.
Proof. solve_decision. Defined.

Global Instance key_countable : Countable key.
Proof.
  refine (inj_countable'
            (λ k, match k with KStr s => inl s | KTup s i => inr (s, i) end)
            (λ x, match x with inl s => KStr s | inr (s, i) => KTup s i end) _).
  by intros [].
Defined.

(** The two task functions of the notebook. *)
Inductive func :=
  | F_convert_file
  | F_write_metadata.

(** A task is the tuple [(function, arg, ..., arg)]. *)
Record task := Task {
  t_func : func;
  t_args : list pyval
}.

(** [HighLevelGraph.from_collections(name, dsk, dependencies=[])] and
    [Delayed(key, graph)] only store what they are given. *)
Record HighLevelGraph := HLG {
  layers : gmap string (gmap key task);
  layer_dependencies : gmap string (gset string)
}.

Record Delayed := MkDelayed {
  d_key : string;
  d_dask : HighLevelGraph
}.

Definition from_collections (name : string) (layer : gmap key task)
    (deps : list Delayed) : HighLevelGraph :=
  {| layers := {[ name := layer ]};
     layer_dependencies := {[ name := list_to_set (d_key <$> deps) ]} |}.

(** ** Python built-ins used by the cells *)

Module Py.

(** [enumerate(l)], counting from [i] *)
Fixpoint enumerate_from {A} (i : nat) (l : list A) : list (nat * A) :=
  match l with
  | [] => []
  | x :: r => (i, x) :: enumerate_from (S i) r
  end.

Definition enumerate {A} (l : list A) : list (nat * A) := enumerate_from 0 l.

(** [range(a, b)] *)
Definition range (a b : nat) : list nat := seq a (b - a).

(** [l[:k]] for an integer [k]: the first [k] elements, and for a negative
    [k] all but the last [-k]. *)
Definition slice_to {A} (l : list A) (k : Z) : list A :=
  if decide (0 ≤ k)%Z then take (Z.to_nat k) l
  else take (length l - Z.to_nat (- k)) l.

(** truth value of [None] or an integer *)
Definition truthy (o : option Z) : bool :=
  match o with
  | None => false
  | Some k => bool_decide (k ≠ 0%Z)
  end.

End Py.

(** ** The libraries the notebook calls *)

(** arguments of [nvt.io.GPUFileIterator(path, engine=, fs=, names=,
    gpu_memory_frac=, sep=, dtypes=)] *)
Record iter_args := IterArgs {
  it_path : string;
  it_engine : string;
  it_fs : filesystem;
  it_names : list string;
  it_gpu_memory_frac : Q;
  it_sep : string;
  it_dtypes : gmap string dtype
}.

(** What a path holds: a Parquet file is the tables written to it, a
    metadata file is the metadata object dumped into it. *)
Inductive content {table metadata : Type} :=
  | Raw (s : string)
  | Parquet (tables : list table)
  | MetaFile (md : metadata).
Arguments content : clear implicits.

Record externals {table metadata sortkey : Type} := Externals {
  (** [dask.base.tokenize], applied to its argument list *)
  tokenize : list pyval → string;
  (** [dask.utils.natural_sort_key] and [<] on the keys it returns *)
  natural_sort_key : string → sortkey;
  key_lt : sortkey → sortkey → bool;
  (** [_analyze_paths(file_list, fs)]: a base path and the relative names *)
  analyze_paths : list string → filesystem → string * list string;
  (** [get_fs_token_paths(path, mode=)[0]] *)
  get_fs : string → string → filesystem;
  (** the chunks [nvt.io.GPUFileIterator] yields, as data frames *)
  GPUFileIterator : gmap string (content table metadata) → iter_args → list table;
  (** the metadata [ParquetWriter.close(metadata_file_path=)] returns *)
  writer_metadata : list table → string → metadata;
  (** [cudf.io.merge_parquet_filemetadata] *)
  merge_parquet_filemetadata : list metadata → metadata;
  (** [device_mem_size(kind=)], in bytes *)
  device_mem_size : option string → Z
}.
Arguments externals : clear implicits.

(** ** Library calls as effects *)

(** One call of [rmm.reinitialize]. *)
Record rmm_call := Reinitialize {
  pool_allocator : bool;
  initial_pool_size : option Q
}.

(** A process is described by the [rmm] calls made in it, oldest first. *)
Definition process := list rmm_call.

Section Effects.
Context {table metadata : Type}.

Inductive event :=
  | EvParquetWriter (path : string) (compression : option string)
  | EvGPUFileIterator (a : iter_args)
  | EvWriteTable (path : string) (t : table)
  | EvWriterClose (path : string) (metadata_file_path : string)
  | EvMerge (mds : list metadata)
  | EvOpen (path mode : string)
  | EvToFile (path : string) (md : metadata).

(** The files that exist and the library calls made so far. *)
Record world := World {
  disk : gmap string (content table metadata);
  trace : list event
}.

Definition M (A : Type) : Type := world → A * world.

Definition ret {A} (a : A) : M A := λ w, (a, w).

Definition bind {A B} (m : M A) (k : A → M B) : M B :=
  λ w, let '(a, w') := m w in k a w'.

Definition emit (e : event) : M unit :=
  λ w, (tt, {| disk := disk w; trace := (trace w ++ [e])%list |}).

Definition read_disk : M (gmap string (content table metadata)) :=
  λ w, (disk w, w).

Definition store (path : string) (c : content table metadata) : M unit :=
  λ w, (tt, {| disk := <[path := c]> (disk w); trace := trace w |}).

(** [for x in l: body(x)] *)
Fixpoint for_each {A} (l : list A) (body : A → M unit) : M unit :=
  match l with
  | [] => ret tt
  | x :: r => bind (body x) (λ _, for_each r body)
  end.

End Effects.
Arguments event : clear implicits.
Arguments world : clear implicits.
Arguments M : clear implicits.

Declare Scope py_scope.
Delimit Scope py_scope with py.
Notation "x <- m ;; k" := (bind m (λ x, k))
  (at level 100, m at next level, right associativity) : py_scope.
Notation "m ;;; k" := (bind m (λ _, k))
  (at level 100, right associativity) : py_scope.

(** ** The conversion notebook *)

(** the character [\t] *)
Definition tab : string := String (ascii_of_nat 9) "".

(** The options the user sets by hand in the Step 2 cell. *)
Record options := Options {
  frac_size : Q;
  allow_multi_gpu : bool;
  use_rmm_pool : bool;
  max_day : option Z
}.

(** The values the notebook ships with. *)
Definition default_options : options :=
  {| frac_size := (15 # 100)%Q;
     allow_multi_gpu := false;
     use_rmm_pool := false;
     max_day := None |}.

(** The names bound by the Step 2 cell. *)
Record settings := Settings {
  INPUT_PATH : string;
  OUTPUT_PATH : string;
  CUDA_VISIBLE_DEVICES : string;
  n_workers : nat;
  opts : options
}.

(** Step 2: [os.environ.get(name, default)] for the three variables. *)
Definition step2 (environ : gmap string string) (o : options) : settings :=
  let input := default "/datasets/criteo/crit_orig" (environ !! "INPUT_PATH") in
  let output := default "/raid/criteo/tests/demo_out" (environ !! "OUTPUT_PATH") in
  let devices := default "0" (environ !! "CUDA_VISIBLE_DEVICES") in
  {| INPUT_PATH := input;
     OUTPUT_PATH := output;
     CUDA_VISIBLE_DEVICES := devices;
     n_workers := length (PyStr.split "," devices);
     opts := o |}.

(** [LocalCUDACluster(n_workers=, CUDA_VISIBLE_DEVICES=)] starts one worker
    process per device; [Client(cluster)] connects to them. *)
Record cluster := Cluster {
  workers : list process;
  devices : string
}.

Record client := Client {
  connected : cluster
}.

Definition LocalCUDACluster (n : nat) (devs : string) : cluster :=
  {| workers := replicate n []; devices := devs |}.

(** [client.run(f)] runs [f] in every worker process. *)
Definition client_run (f : process → process) (c : client) : client :=
  {| connected := {| workers := f <$> workers (connected c);
                     devices := devices (connected c) |} |}.

(** The graph cell binds these names. *)
Record graph_cell := GraphCell {
  fs : filesystem;
  file_list : list string;
  name_list : list string;
  cols : list string;
  dtypes : gmap string dtype;
  token : string;
  convert_file_name : string;
  write_meta_name : string;
  dsk : gmap key task;
  graph : HighLevelGraph;
  conversion_delayed : Delayed
}.

(** [delayed.compute(scheduler=)] *)
Record compute_call := Compute {
  computed : Delayed;
  scheduler : option string
}.

(** [sorted(l, key=)]: a stable sort that compares keys with [<].  An
    element is put before the first element of the sorted rest whose key is
    not smaller, so elements with equal keys keep their order. *)
Section Sorted.
Context {A K : Type} (lt : K → K → bool) (sort_key : A → K).

Fixpoint insert_sorted (x : A) (l : list A) : list A :=
  match l with
  | [] => [x]
  | y :: r =>
      if lt (sort_key y) (sort_key x) then y :: insert_sorted x r
      else x :: y :: r
  end.

Definition sorted (l : list A) : list A := foldr insert_sorted [] l.

End Sorted.

Section Notebook.
Context {table metadata sortkey : Type}.
Context (X : externals table metadata sortkey).

Local Open Scope py_scope.
Local Abbreviation M := (M table metadata).

(** *** Step 3: helper and task functions *)

(** [_pool(frac=0.8)], run in a process *)
Definition _pool (frac : Q) (p : process) : process :=
  (p ++ [ {| pool_allocator := true;
             initial_pool_size :=
               Some (Qmult frac (inject_Z (device_mem_size X None))) |} ])%list.

(** [cudf.io.parquet.ParquetWriter]: creating the writer starts the file,
    [write_table] appends a table to it, [close] returns the metadata of
    what was written. *)
Record writer := Writer {
  w_path : string;
  w_compression : option string
}.

Definition tables_at (d : gmap string (content table metadata))
    (path : string) : list table :=
  match d !! path with
  | Some (Parquet ts) => ts
  | _ => []
  end.

Definition ParquetWriter (path : string) (compression : option string)
    : M writer :=
  emit (EvParquetWriter path compression) ;;;
  store path (Parquet []) ;;;
  ret (Writer path compression).

Definition write_table (w : writer) (t : table) : M unit :=
  emit (EvWriteTable (w_path w) t) ;;;
  d <- read_disk ;;
  store (w_path w) (Parquet (tables_at d (w_path w) ++ [t])%list).

Definition writer_close (w : writer) (metadata_file_path : string)
    : M metadata :=
  emit (EvWriterClose (w_path w) metadata_file_path) ;;;
  d <- read_disk ;;
  ret (writer_metadata X (tables_at d (w_path w)) metadata_file_path).

(** the chunks of one [GPUFileIterator], read from the files as they are
    when the iterator is made *)
Definition iterate (a : iter_args) : M (list table) :=
  emit (EvGPUFileIterator a) ;;;
  d <- read_disk ;;
  ret (GPUFileIterator X d a).

Definition _convert_file (path name out_dir : string) (frac_size : Q)
    (fs : filesystem) (cols : list string) (dtypes : gmap string dtype)
    : M metadata :=
  let fn := name +:+ ".parquet" in
  let out_path := PyStr.join (sep fs) [out_dir; name +:+ ".parquet"] in
  writer <- ParquetWriter out_path None ;;
  chunks <- iterate {| it_path := path; it_engine := "csv"; it_fs := fs;
                       it_names := cols; it_gpu_memory_frac := frac_size;
                       it_sep := tab; it_dtypes := dtypes |} ;;
  for_each chunks (λ gdf, write_table writer gdf) ;;;
  md <- writer_close writer fn ;;
  ret md.

(** [with fs.open(path, "wb") as fil: meta.tofile(fil)] *)
Definition dump_metadata (path : string) (meta : metadata) : M unit :=
  emit (EvOpen path "wb") ;;;
  store path (Raw "") ;;;
  emit (EvToFile path meta) ;;;
  store path (MetaFile meta).

Definition _write_metadata (md_list : list metadata) (fs : filesystem)
    (path : string) : M bool :=
  match md_list with
  | md0 :: _ =>
      let metadata_path := PyStr.join (sep fs) [path; "_metadata"] in
      _meta <- (if decide (1 < length md_list)
                then emit (EvMerge md_list) ;;;
                     ret (merge_parquet_filemetadata X md_list)
                else ret md0) ;;
      dump_metadata metadata_path _meta ;;;
      ret true
  | [] => ret true
  end.

(** *** Step 4: optionally start a Dask cluster *)

Definition step4 (s : settings) (local : process) : option client * process :=
  if bool_decide (1 < n_workers s) && allow_multi_gpu (opts s) then
    let cluster := LocalCUDACluster (n_workers s) (CUDA_VISIBLE_DEVICES s) in
    let client := Client cluster in
    if use_rmm_pool (opts s)
    then (Some (client_run (_pool (8 # 10)) client), local)
    else (Some client, local)
  else if use_rmm_pool (opts s) then (None, _pool (8 # 10) local)
  else (None, local).

(** *** Step 5: build the task graph *)

(** the paths the glob returns, without those that end in [parquet] *)
Definition globbed (s : settings) (fs : filesystem) (paths : gset string)
    : list string :=
  filter (λ x, PyStr.endswith x "parquet" = false)
         (glob fs paths (PyStr.join (sep fs) [INPUT_PATH s; "day_*"])).

Definition select_files (s : settings) (fs : filesystem)
    (paths : gset string) : list string :=
  let file_list := globbed s fs paths in
  let file_list := sorted (key_lt X) (natural_sort_key X) file_list in
  if Py.truthy (max_day (opts s))
  then Py.slice_to file_list (default 0%Z (max_day (opts s)))
  else file_list.

Definition cont_names : list string :=
  (λ x, "I" +:+ PyStr.str x) <$> Py.range 1 14.

Definition cat_names : list string :=
  (λ x, "C" +:+ PyStr.str x) <$> Py.range 1 27.

Definition columns : list string :=
  (["label"] ++ cont_names ++ cat_names)%list.

Definition column_dtypes : gmap string dtype :=
  let dtypes := ∅ in
  let dtypes := <["label" := np_int64]> dtypes in
  let dtypes := foldl (λ d x, <[x := np_int64]> d) dtypes cont_names in
  let dtypes := foldl (λ d x, <[x := dt_str "hex"]> d) dtypes cat_names in
  dtypes.

(** the tuple stored for one input file *)
Definition convert_task (OUTPUT_PATH : string) (frac_size : Q)
    (fs : filesystem) (path name : string) : task :=
  {| t_func := F_convert_file;
     t_args := [VStr path; VStr name; VStr OUTPUT_PATH;
                VFloat frac_size; VFs fs;
                VList (VStr <$> columns); VDict column_dtypes] |}.

Definition build_dsk (OUTPUT_PATH : string) (frac_size : Q)
    (fs : filesystem) (file_list name_list : list string)
    (token : string) : gmap key task :=
  let dsk := ∅ in
  let convert_file_name := "convert_file-" +:+ token in
  let dsk :=
    foldl (λ dsk '(i, (path, name)),
             let key := KTup convert_file_name i in
             <[key := convert_task OUTPUT_PATH frac_size fs path name]> dsk)
          dsk (Py.enumerate (zip file_list name_list)) in
  let write_meta_name := "write-metadata-" +:+ token in
  <[KStr write_meta_name :=
      {| t_func := F_write_metadata;
         t_args := [VList ((λ i, VTuple convert_file_name i)
                             <$> Py.range 0 (length file_list));
                    VFs fs; VStr OUTPUT_PATH] |}]> dsk.

(** the names the cell binds when it runs to its end; [run_step5] below is
    the cell together with the exception it can end with *)
Definition step5 (s : settings) (paths : gset string) : graph_cell :=
  let fs := get_fs X (INPUT_PATH s) "rb" in
  let file_list := select_files s fs paths in
  let name_list := (analyze_paths X file_list fs).2 in
  let token :=
    tokenize X [VList (VStr <$> file_list); VList (VStr <$> name_list);
                VStr (OUTPUT_PATH s); VFloat (frac_size (opts s)); VFs fs;
                VList (VStr <$> columns); VDict column_dtypes] in
  let dsk := build_dsk (OUTPUT_PATH s) (frac_size (opts s)) fs file_list
                       name_list token in
  let write_meta_name := "write-metadata-" +:+ token in
  let graph := from_collections write_meta_name dsk [] in
  {| fs := fs; file_list := file_list; name_list := name_list;
     cols := columns; dtypes := column_dtypes; token := token;
     convert_file_name := "convert_file-" +:+ token;
     write_meta_name := write_meta_name;
     dsk := dsk; graph := graph;
     conversion_delayed := MkDelayed write_meta_name graph |}.

(** the tuple stored under the metadata key *)
Definition merge_task (s : settings) (paths : gset string) : task :=
  let g := step5 s paths in
  {| t_func := F_write_metadata;
     t_args := [VList ((λ i, VTuple (convert_file_name g) i)
                         <$> seq 0 (length (file_list g)));
                VFs (fs g); VStr (OUTPUT_PATH s)] |}.

(** *** Step 6: execute the conversion *)

Definition step6 (c : option client) (conversion_delayed : Delayed)
    : compute_call :=
  match c with
  | Some _ => {| computed := conversion_delayed; scheduler := None |}
  | None => {| computed := conversion_delayed;
               scheduler := Some "synchronous" |}
  end.

End Notebook.

(** the events a run appended to the trace *)
Definition appended {table metadata : Type} (w w' : world table metadata)
    : list (event table metadata) :=
  drop (length (trace w)) (trace w').


(** ** The graph cell as it runs *)

(** the exceptions a cell can end with *)
Inductive exception :=
  | IndexError.

(** how a cell ends: with its names bound, or with an exception *)
Inductive outcome (A : Type) :=
  | Returned (a : A)
  | Raised (e : exception).
Arguments Returned {A} a.
Arguments Raised {A} e.

(** Modelled from Dask's [_analyze_paths], which the cell calls on line 157:
    it takes the directory of the first path, [path_parts_list[0]], so on an
    empty [file_list] it raises [IndexError], and the cell stops before
    [dsk = {}].  On a list that is not empty the cell runs to its end and
    binds the names of [step5]. *)
Definition run_step5 {table metadata sortkey : Type}
    (X : externals table metadata sortkey) (s : settings)
    (paths : gset string) : outcome graph_cell :=
  let fs := get_fs X (INPUT_PATH s) "rb" in
  let file_list := select_files X s fs paths in
  match file_list with
  | [] => Raised IndexError
  | _ :: _ => Returned (step5 X s paths)
  end.


(** ** Dependencies in a Dask graph *)

(** Modelled from Dask's graph specification ([dask.core.get_dependencies]):
    an argument of a task that is a key of the graph is a dependency of the
    task; lists and the values of dictionaries are searched; any other
    value is a literal. *)
Module Dask.

(** the keys a value could name *)
Fixpoint mentions (v : pyval) : list key :=
  match v with
  | VStr s => [KStr s]
  | VTuple s i => [KTup s i]
  | VList l =>
      (fix go (l : list pyval) : list key :=
         match l with
         | [] => []
         | x :: r => mentions x ++ go r
         end) l
  | VDict d =>
      omap (λ v, match v with
                 | dt_str s => Some (KStr s)
                 | np_int64 => None
                 end) (map_to_list d).*2
  | VFloat _ => []
  | VFs _ => []
  end.

Definition get_dependencies (dsk : gmap key task) (t : task) : gset key :=
  filter (λ k, k ∈ dom dsk) (list_to_set (mjoin (mentions <$> t_args t))).

(** [k] depends on [k'] in [dsk] *)
Definition depends (dsk : gmap key task) (k k' : key) : Prop :=
  ∃ t, dsk !! k = Some t ∧ k' ∈ get_dependencies dsk t.

(** number of tasks on the longest chain of dependencies from [k] *)
Fixpoint depth (dsk : gmap key task) (fuel : nat) (k : key) : nat :=
  match fuel with
  | 0 => 0
  | S fuel =>
      match dsk !! k with
      | None => 0
      | Some t =>
          S (max_list (depth dsk fuel <$> elements (get_dependencies dsk t)))
      end
  end.

End Dask.

(** a string key that cannot be the metadata key: it does not start with [w] *)
Definition literal_key (k : key) : bool :=
  match k with
  | KStr (String a _) => negb (Ascii.eqb a "w")
  | _ => false
  end.


(** ** The training notebook *)

Module Training.
Section Cells.
Context {table metadata sortkey : Type}.
Context (X : externals table metadata sortkey).

(** the cell "Initializing the Memory Pool":
    [rmm.reinitialize(pool_allocator=True,
       initial_pool_size=0.8 * nvt.io.device_mem_size(kind='free'))] *)
Definition init_pool (p : process) : process :=
  p ++ [ {| pool_allocator := true;
            initial_pool_size :=
              Some (Qmult (8 # 10)
                      (inject_Z (device_mem_size X (Some "free")))) |} ].

(** the first cell of "Data Loading":
    [rmm.reinitialize(pool_allocator=False)] *)
Definition release_pool (p : process) : process :=
  p ++ [ {| pool_allocator := false; initial_pool_size := None |} ].

(** The notebook's cells run in order; the other cells make no [rmm]
    call. *)
Definition run (p : process) : process := release_pool (init_pool p).

End Cells.
End Training.

(** ** A small installation to run the cells on *)

Module Demo.

(** a data frame is its rows, a metadata object the lines describing files *)
Definition table : Type := list string.
Definition metadata : Type := list string.

Definition newline : ascii := ascii_of_nat 10.

(** the number written by the digits of a string: [day_10] gives 10 *)
Fixpoint digits (acc : N) (s : string) : N :=
  match s with
  | EmptyString => acc
  | String a r =>
      let n := N_of_ascii a in
      if ((48 <=? n) && (n <=? 57))%N then digits (acc * 10 + (n - 48)) r
      else digits acc r
  end.

Definition basename (s : string) : string :=
  List.last (PyStr.split "/" s) s.

(** [dir/day_*]: the paths under the text before the star, with no
    separator after it *)
Definition glob_star (paths : gset string) (pattern : string) : list string :=
  let stem := String.substring 0 (String.length pattern - 1) pattern in
  filter (λ p, String.prefix stem p = true
               ∧ PyStr.count "/" p = PyStr.count "/" stem)
         (elements paths).

Definition local_fs : filesystem := {| sep := "/"; glob := glob_star |}.

Fixpoint weight (v : pyval) : nat :=
  match v with
  | VStr s => String.length s
  | VFloat _ => 1
  | VTuple s i => String.length s + i
  | VList l => (fix go (l : list pyval) : nat :=
                  match l with
                  | [] => 0
                  | x :: r => weight x + go r
                  end) l
  | VDict d => size d
  | VFs fs => String.length (sep fs)
  end.

Definition X : externals table metadata N :=
  {| tokenize := λ args, PyStr.str (weight (VList args));
     natural_sort_key := digits 0;
     key_lt := N.ltb;
     analyze_paths := λ l _, ("", basename <$> l);
     get_fs := λ _ _, local_fs;
     GPUFileIterator := λ d a,
       match d !! it_path a with
       | Some (Raw s) => (λ line, [line]) <$> PyStr.split newline s
       | _ => []
       end;
     writer_metadata := λ ts fn, [fn +:+ ":" +:+ PyStr.str (length ts)];
     merge_parquet_filemetadata := λ mds, concat mds;
     device_mem_size := λ _, 16000%Z |}.

Definition csv (rows : list string) : content table metadata :=
  Raw (PyStr.join (String newline "") rows).

Definition files : gmap string (content table metadata) :=
  <["/data/day_10" := csv ["1"; "2"]]>
  (<["/data/day_2" := csv ["3"]]>
  (<["/data/day_0" := csv ["4"; "5"; "6"]]>
  (<["/data/day_0.parquet" := Parquet []]>
  (<["/data/notes" := Raw "x"]> ∅)))).

Definition environ : gmap string string :=
  <["INPUT_PATH" := "/data"]>
  (<["OUTPUT_PATH" := "/out"]>
  (<["CUDA_VISIBLE_DEVICES" := "0,1"]> ∅)).

Definition with_max_day (k : option Z) : options :=
  {| frac_size := frac_size default_options;
     allow_multi_gpu := allow_multi_gpu default_options;
     use_rmm_pool := use_rmm_pool default_options;
     max_day := k |}.

Definition multi_gpu (pool : bool) : options :=
  {| frac_size := frac_size default_options;
     allow_multi_gpu := true;
     use_rmm_pool := pool;
     max_day := None |}.

Definition start : world table metadata := {| disk := files; trace := [] |}.

Definition settings0 : settings := step2 environ default_options.
Definition cell0 : graph_cell := step5 X settings0 (dom files).

(** a directory with no day file in it *)
Definition no_days : gset string := {[ "/data/notes"; "/data/readme" ]}.

End Demo.


(** ** Running the task graph *)

(** Modelled from Dask's graph specification and its local scheduler
    ([dask.local.get_async], [dask.core._execute_task]): a task runs once
    all its dependencies have results; it is called on its arguments, where
    an argument that is one of its dependencies is replaced by that
    dependency's result, lists are resolved element by element, and
    anything else is passed as it is. *)

(** what a task of the notebook returns *)
Inductive result {metadata : Type} :=
  | RMeta (md : metadata)
  | RBool (b : bool).
Arguments result : clear implicits.

(** an argument after its keys are resolved *)
#[warnings="-register-all"]
Inductive value {metadata : Type} :=
  | Literal (v : pyval)
  | Computed (r : result metadata)
  | Values (l : list value).
Arguments value : clear implicits.

(** the key a hashable argument would be *)
Definition as_key (v : pyval) : option key :=
  match v with
  | VStr s => Some (KStr s)
  | VTuple s i => Some (KTup s i)
  | _ => None
  end.

Fixpoint resolve {metadata : Type} (data : gmap key (result metadata))
    (v : pyval) : value metadata :=
  match v with
  | VList l =>
      Values ((fix go (l : list pyval) : list (value metadata) :=
                 match l with
                 | [] => []
                 | x :: r => resolve data x :: go r
                 end) l)
  | _ =>
      match as_key v ≫= (data !!.) with
      | Some r => Computed r
      | None => Literal v
      end
  end.

Definition as_str {metadata : Type} (v : value metadata) : option string :=
  match v with Literal (VStr s) => Some s | _ => None end.

Definition as_float {metadata : Type} (v : value metadata) : option Q :=
  match v with Literal (VFloat q) => Some q | _ => None end.

Definition as_fs {metadata : Type} (v : value metadata) : option filesystem :=
  match v with Literal (VFs fs) => Some fs | _ => None end.

Definition as_dict {metadata : Type} (v : value metadata)
    : option (gmap string dtype) :=
  match v with Literal (VDict d) => Some d | _ => None end.

Definition as_metadata {metadata : Type} (v : value metadata)
    : option metadata :=
  match v with Computed (RMeta md) => Some md | _ => None end.

Definition as_list {metadata : Type} {A} (f : value metadata → option A)
    (v : value metadata) : option (list A) :=
  match v with Values l => mapM f l | _ => None end.

Section Execution.
Context {table metadata sortkey : Type}.
Context (X : externals table metadata sortkey).

Local Open Scope py_scope.

(** the call of [func] on the resolved arguments; [None] stands for the exception raised when the
    arguments are not of the number or kinds the function works on *)
Definition apply_func (f : func) (args : list (value metadata))
    : option (M table metadata (result metadata)) :=
  match f with
  | F_convert_file =>
      match args with
      | [a1; a2; a3; a4; a5; a6; a7] =>
          path ← as_str a1; name ← as_str a2; out_dir ← as_str a3;
          frac_size ← as_float a4; fs ← as_fs a5;
          cols ← as_list as_str a6; dtypes ← as_dict a7;
          Some (md <- _convert_file X path name out_dir frac_size fs cols
                        dtypes ;;
                ret (RMeta md))
      | _ => None
      end
  | F_write_metadata =>
      match args with
      | [a1; a2; a3] =>
          md_list ← as_list as_metadata a1; fs ← as_fs a2; path ← as_str a3;
          Some (b <- _write_metadata X md_list fs path ;; ret (RBool b))
      | _ => None
      end
  end.

(** one task: [None] when the key is not in the graph, a dependency has no
    result yet, or the call raises *)
Definition execute_task (dsk : gmap key task)
    (cache : gmap key (result metadata)) (k : key) (w : world table metadata)
    : option (gmap key (result metadata) * world table metadata) :=
  t ← dsk !! k;
  let deps := Dask.get_dependencies dsk t in
  if decide (deps ⊆ dom cache) then
    let data := filter (λ kr, kr.1 ∈ deps) cache in
    call ← apply_func (t_func t) (resolve data <$> t_args t);
    Some (<[k := (call w).1]> cache, (call w).2)
  else None.

(** the tasks run one after the other, in the order the scheduler picked *)
Fixpoint run_schedule (dsk : gmap key task) (order : list key)
    (cache : gmap key (result metadata)) (w : world table metadata)
    : option (gmap key (result metadata) * world table metadata) :=
  match order with
  | [] => Some (cache, w)
  | k :: rest =>
      match execute_task dsk cache k w with
      | Some (cache, w) => run_schedule dsk rest cache w
      | None => None
      end
  end.

(** [delayed.compute(scheduler="synchronous")]: the result of the key of the
    [Delayed], once the tasks of its layer have run *)
Definition compute_sync (d : Delayed) (order : list key)
    (w : world table metadata)
    : option (result metadata * world table metadata) :=
  dsk ← layers (d_dask d) !! d_key d;
  match run_schedule dsk order ∅ w with
  | Some (cache, w') => r ← cache !! KStr (d_key d); Some (r, w')
  | None => None
  end.

(** the arguments [_convert_file] gives the iterator for one input *)
Definition reader_args (s : settings) (fs : filesystem) (path : string)
    : iter_args :=
  {| it_path := path; it_engine := "csv"; it_fs := fs; it_names := columns;
     it_gpu_memory_frac := frac_size (opts s); it_sep := tab;
     it_dtypes := column_dtypes |}.

(** the file [_convert_file] writes for a name *)
Definition out_path (s : settings) (fs : filesystem) (name : string) : string :=
  OUTPUT_PATH s +:+ sep fs +:+ name +:+ ".parquet".

(** the metadata of the conversion of [path], read from the files [d] *)
Definition metadata_of (s : settings) (fs : filesystem)
    (d : gmap string (content table metadata)) (path name : string)
    : metadata :=
  writer_metadata X (GPUFileIterator X d (reader_args s fs path))
                  (name +:+ ".parquet").

(** the results and the files once the inputs at the indices [done] are
    converted, starting from the files of [w0] *)
Definition converted (s : settings) (fs : filesystem)
    (w0 : world table metadata) (fl nl : list string) (c : string)
    (done : list nat) (cache : gmap key (result metadata))
    (w1 : world table metadata) : Prop :=
  (∀ k, cache !! k =
          match k with
          | KTup c' i =>
              if decide (c' = c ∧ i ∈ done)
              then Some (RMeta (metadata_of s fs (disk w0)
                                  (fl !!! i) (nl !!! i)))
              else None
          | KStr _ => None
          end) ∧
  (∀ i, i ∈ done →
        disk w1 !! out_path s fs (nl !!! i) =
          Some (Parquet (GPUFileIterator X (disk w0)
                           (reader_args s fs (fl !!! i))))) ∧
  (∀ p, (∀ i, i ∈ done → p ≠ out_path s fs (nl !!! i)) →
        disk w1 !! p = disk w0 !! p).

(** the iterator reads the file it is given and no other *)
Definition reads_only_its_path : Prop :=
  ∀ d d' a, d !! it_path a = d' !! it_path a →
            GPUFileIterator X d a = GPUFileIterator X d' a.

End Execution.

(** ** The training notebook: which files are read *)

Module OsPath.

(** [os.path.join(a, b)] (POSIX) *)
Definition join (a b : string) : string :=
  if String.prefix "/" b then b
  else if bool_decide (a = "") || PyStr.endswith a "/" then a +:+ b
  else a +:+ "/" +:+ b.

End OsPath.

(** Python's [re], for the patterns made of plain characters, [.], [[0-9]]
    and a bounded repetition [{m,n}] of one-digit bounds *)
Module Re.

Inductive regex :=
  | Empty
  | Chr (c : ascii)
  | Digit
  | Any
  | Cat (r1 r2 : regex)
  | Repeat (r : regex) (lo hi : nat).

Definition is_digit (a : ascii) : bool :=
  (48 <=? nat_of_ascii a) && (nat_of_ascii a <=? 57).

(** what is left of [s] after each way [r] matches at its start *)
Fixpoint residues (r : regex) (s : string) : list string :=
  match r with
  | Empty => [s]
  | Chr c =>
      match s with
      | String a t => if bool_decide (a = c) then [t] else []
      | EmptyString => []
      end
  | Digit =>
      match s with
      | String a t => if is_digit a then [t] else []
      | EmptyString => []
      end
  | Any =>
      match s with
      | String a t => if bool_decide (a = ascii_of_nat 10) then [] else [t]
      | EmptyString => []
      end
  | Cat r1 r2 => residues r1 s ≫= residues r2
  | Repeat r lo hi =>
      (fix rep (lo hi : nat) (s : string) : list string :=
         (match lo with 0 => [s] | S _ => [] end)
         ++ match hi with
            | 0 => []
            | S hi' => residues r s ≫= rep (pred lo) hi'
            end) lo hi s
  end.

(** [re.match(r, s) is not None] *)
Definition matches (r : regex) (s : string) : bool :=
  match residues r s with
  | [] => false
  | _ :: _ => true
  end.

Definition digit_value (a : ascii) : option nat :=
  if is_digit a then Some (nat_of_ascii a - 48) else None.

(** the pattern a string denotes; [None] for syntax outside the fragment *)
Fixpoint parse (s : string) : option regex :=
  match s with
  | EmptyString => Some Empty
  | String "[" (String "0" (String "-" (String "9" (String "]" t)))) =>
      match t with
      | String "{" (String m (String "," (String n (String "}" t')))) =>
          lo ← digit_value m; hi ← digit_value n;
          Cat (Repeat Digit lo hi) <$> parse t'
      | _ => Cat Digit <$> parse t
      end
  | String "." t => Cat Any <$> parse t
  | String a t =>
      if bool_decide (a ∈ String.list_ascii_of_string "\^$*+?{}[]()|")
      then None
      else Cat (Chr a) <$> parse t
  end.

End Re.

Module TrainingData.

Definition NUM_TRAIN_DAYS : nat := 23.

(** ['day_{}.parquet'.format(x)] *)
Definition fname (x : string) : string := "day_" +:+ x +:+ ".parquet".

(** [re.match(fname.format('[0-9]{1,2}'), i) is not None]; a pattern that
    does not parse matches nothing *)
Definition is_day (i : string) : bool :=
  match Re.parse (fname "[0-9]{1,2}") with
  | Some r => Re.matches r i
  | None => false
  end.

(** [num_days], from [os.listdir(INPUT_DATA_DIR)] *)
Definition num_days (listing : list string) : nat :=
  length (filter (λ i, is_day i = true) listing).

Definition day_path (INPUT_DATA_DIR : string) (day : nat) : string :=
  OsPath.join INPUT_DATA_DIR (fname (PyStr.str day)).

Definition train_paths (INPUT_DATA_DIR : string) : list string :=
  day_path INPUT_DATA_DIR <$> Py.range 0 NUM_TRAIN_DAYS.

Definition valid_paths (INPUT_DATA_DIR : string) (listing : list string)
    : list string :=
  day_path INPUT_DATA_DIR <$> Py.range NUM_TRAIN_DAYS (num_days listing).

(** [gen_col(batch)]: [None] is the [IndexError] of an index out of range;
    [long] is the tensor method [.long()] *)
Definition gen_col {T : Type} (long : T → T) (batch : list (list T))
    : option ((T * T) * T) :=
  batch ← batch !! 0;
  b0 ← batch !! 0; b1 ← batch !! 1; b2 ← batch !! 2;
  Some ((b0, b1), long b2).

End TrainingData.

(** ** Auxiliary notions for the statements *)

(** [s] without its prefix [p], if it has it *)
Fixpoint strip (p s : string) : option string :=
  match p with
  | EmptyString => Some s
  | String a p' =>
      match s with
      | String b s' => if bool_decide (b = a) then strip p' s' else None
      | EmptyString => None
      end
  end.

(** the pattern for the characters of [s], then [r] *)
Fixpoint chain (s : string) (r : Re.regex) : Re.regex :=
  match s with
  | EmptyString => r
  | String a s' => Re.Cat (Re.Chr a) (chain s' r)
  end.

Fixpoint all_digits (s : string) : bool :=
  match s with
  | EmptyString => true
  | String a s' => Re.is_digit a && all_digits s'
  end.

(** what [os.path.join] puts before a relative name *)
Definition dir_prefix (dir : string) : string :=
  if bool_decide (dir = "") || PyStr.endswith dir "/" then dir
  else dir +:+ "/".

(** ** More of the small installation *)

Module Demo2.

(** an order in which the scheduler may run the three conversion tasks *)
Definition order : list nat := [2; 0; 1].

Definition order' : list nat := [1; 2; 0].

(** a directory in which two names have the same natural sort key *)
Definition tied : gset string :=
  {[ "/data/day_1"; "/data/day_01"; "/data/day_0" ]}.

End Demo2.

(** * Facts *)

Arguments step5 : simpl never.
Arguments select_files : simpl never.
Arguments columns : simpl never.
Arguments column_dtypes : simpl never.

(** ** The loop that fills the task dictionary *)

Section BuildLoop.
Context (conv : string → string → task) (c : string).

Local Abbreviation loop := (foldl (λ (dsk : gmap key task) '(i, (path, name)),
                                <[KTup c i := conv path name]> dsk)).

Lemma loop_lookup_tuple (l : list (string * string)) (j : nat)
    (d : gmap key task) (i : nat) :
  loop d (Py.enumerate_from j l) !! KTup c i =
    match (if decide (j ≤ i) then l !! (i - j) else None) with
    | Some (path, name) => Some (conv path name)
    | None => d !! KTup c i
    end.
Proof.
  revert j d. induction l as [|[p n] l IH]; intros j d; simpl.
  - by case_decide.
  - rewrite IH. destruct (decide (i = j)) as [->|Hij].
    + rewrite decide_False by lia. rewrite decide_True by lia.
      rewrite Nat.sub_diag. simpl. apply lookup_insert_eq.
    + repeat case_decide; try lia.
      * replace (i - j) with (S (i - S j)) by lia. simpl.
        destruct (l !! (i - S j)) as [[??]|]; [done|].
        rewrite lookup_insert_ne; [done|congruence].
      * rewrite lookup_insert_ne; [done|congruence].
Qed.

Lemma loop_lookup_other (l : list (string * string)) (j : nat)
    (d : gmap key task) (k : key) :
  (∀ i, k ≠ KTup c i) →
  loop d (Py.enumerate_from j l) !! k = d !! k.
Proof.
  intros Hk. revert j d. induction l as [|[p n] l IH]; intros j d; simpl.
  - done.
  - rewrite IH. rewrite lookup_insert_ne; [done|]. intros E. by apply (Hk j).
Qed.

Lemma loop_dom (l : list (string * string)) (j : nat) (d : gmap key task) :
  dom (loop d (Py.enumerate_from j l)) =
    dom d ∪ list_to_set (KTup c <$> seq j (length l)).
Proof.
  revert j d. induction l as [|[p n] l IH]; intros j d; simpl.
  - set_solver.
  - rewrite IH, dom_insert_L. set_solver.
Qed.

End BuildLoop.

Lemma KTup_seq_NoDup (c : string) (j n : nat) : NoDup (KTup c <$> seq j n).
Proof.
  apply NoDup_fmap_2; [|apply NoDup_seq]. by intros ?? [=].
Qed.

Lemma size_tuple_keys (c : string) (n : nat) :
  size (list_to_set (KTup c <$> seq 0 n) : gset key) = n.
Proof.
  rewrite size_list_to_set by apply KTup_seq_NoDup.
  by rewrite length_fmap, length_seq.
Qed.


(** ** The task dictionary (Step 5) *)

Section GraphFacts.
Context {table metadata sortkey : Type}.
Context (X : externals table metadata sortkey).
Context (s : settings) (paths : gset string).

Local Abbreviation g := (step5 X s paths).
Local Abbreviation conversion :=
  (convert_task (OUTPUT_PATH s) (frac_size (opts s)) (fs (step5 X s paths))).

Lemma step5_dsk :
  dsk g =
    <[KStr (write_meta_name g) := merge_task X s paths]>
      (foldl (λ (dsk : gmap key task) '(i, (path, name)),
                <[KTup (convert_file_name g) i :=
                    conversion path name]> dsk)
             ∅ (Py.enumerate_from 0 (zip (file_list g) (name_list g)))).
Proof.
  unfold merge_task. cbv zeta. rewrite <- (Nat.sub_0_r (length (file_list g))) at 1.
  reflexivity.
Qed.

Lemma dsk_lookup_merge :
  dsk g !! KStr (write_meta_name g) = Some (merge_task X s paths).
Proof.
  rewrite step5_dsk. apply lookup_insert_eq.
Qed.

Lemma dsk_lookup_tuple (c : string) (i : nat) :
  dsk g !! KTup c i =
    if decide (c = convert_file_name g) then
      match zip (file_list g) (name_list g) !! i with
      | Some (path, name) => Some (conversion path name)
      | None => None
      end
    else None.
Proof.
  rewrite step5_dsk, lookup_insert_ne by done.
  case_decide as Hc.
  - subst c.
    rewrite (loop_lookup_tuple (convert_task _ _ _)).
    rewrite decide_True by lia. rewrite Nat.sub_0_r.
    by destruct (zip _ _ !! i) as [[??]|].
  - rewrite (loop_lookup_other (convert_task _ _ _)); [done|]. congruence.
Qed.

Lemma dsk_lookup_string (k : string) :
  dsk g !! KStr k =
    if decide (k = write_meta_name g) then Some (merge_task X s paths) else None.
Proof.
  case_decide as Hk.
  - subst k. apply dsk_lookup_merge.
  - rewrite step5_dsk, lookup_insert_ne by congruence.
    by rewrite (loop_lookup_other (convert_task _ _ _)).
Qed.

Lemma dsk_dom :
  dom (dsk g) =
    list_to_set (KTup (convert_file_name g)
                   <$> seq 0 (length (zip (file_list g) (name_list g))))
    ∪ {[ KStr (write_meta_name g) ]}.
Proof.
  rewrite step5_dsk, dom_insert_L.
  rewrite (loop_dom (convert_task _ _ _)). set_solver.
Qed.

Lemma dsk_size :
  size (dsk g) = S (length (zip (file_list g) (name_list g))).
Proof.
  rewrite <- size_dom, dsk_dom, size_union.
  - rewrite size_tuple_keys, size_singleton. lia.
  - intros k Hk Hk'.
    apply elem_of_list_to_set, list_elem_of_fmap in Hk as [i [-> _]].
    by apply elem_of_singleton in Hk'.
Qed.

End GraphFacts.

(** what the dictionary holds once the cell has built it *)
Lemma dsk_contents {table metadata sortkey : Type}
    (X : externals table metadata sortkey) (s : settings)
    (paths : gset string)
    (Hnames : ∀ l fs, length (analyze_paths X l fs).2 = length l) :
  let g := step5 X s paths in
  let n := length (file_list g) in
  let convert_name := "convert_file-" +:+ token g in
  let merge_key := KStr ("write-metadata-" +:+ token g) in
  (∀ i path, file_list g !! i = Some path →
     ∃ name, name_list g !! i = Some name ∧
       dsk g !! KTup convert_name i =
         Some {| t_func := F_convert_file;
                 t_args := [VStr path; VStr name; VStr (OUTPUT_PATH s);
                            VFloat (frac_size (opts s)); VFs (fs g);
                            VList (VStr <$> cols g); VDict (dtypes g)] |}) ∧
  dsk g !! merge_key =
    Some {| t_func := F_write_metadata;
            t_args := [VList (VTuple convert_name <$> seq 0 n);
                       VFs (fs g); VStr (OUTPUT_PATH s)] |} ∧
  dom (dsk g) = list_to_set (KTup convert_name <$> seq 0 n) ∪ {[ merge_key ]} ∧
  size (dsk g) = n + 1.
Proof.
  cbv zeta. set (g := step5 X s paths).
  assert (Hlen : length (name_list g) = length (file_list g)) by apply Hnames.
  assert (Hzip : length (zip (file_list g) (name_list g)) = length (file_list g)).
  { rewrite length_zip. lia. }
  repeat split.
  - intros i path Hi.
    destruct (lookup_lt_is_Some_2 (name_list g) i) as [name Hname].
    { rewrite Hlen. by eapply lookup_lt_Some. }
    exists name. split; [done|].
    unfold g. rewrite dsk_lookup_tuple. fold g.
    rewrite decide_True by done.
    erewrite (proj2 (lookup_zip_with_Some pair _ _ i (path, name))); [done|].
    eauto.
  - exact (dsk_lookup_merge X s paths).
  - unfold g. rewrite dsk_dom. fold g. by rewrite Hzip.
  - unfold g. rewrite dsk_size. fold g. rewrite Hzip. lia.
Qed.

(** C1, in the form the code satisfies.  Under the library contract that
    [_analyze_paths] returns one name per path: for a selected file list of
    length [n] that is not empty, the graph cell runs to its end and its
    task dictionary holds one conversion task per file under the key
    [("convert_file-" + token, i)], bound to [_convert_file] with that file's
    path and name, and one metadata task under ["write-metadata-" + token]
    whose first argument is the list of the [n] conversion keys; it holds
    nothing else.  For an empty file list the cell raises [IndexError] in
    [_analyze_paths] and builds no dictionary. *)
Theorem C1_one_task_per_file {table metadata sortkey : Type}
    (X : externals table metadata sortkey) (s : settings)
    (paths : gset string)
    (Hnames : ∀ l fs, length (analyze_paths X l fs).2 = length l) :
  let files := select_files X s (get_fs X (INPUT_PATH s) "rb") paths in
  let n := length files in
  (n = 0 → run_step5 X s paths = Raised IndexError) ∧
  (0 < n →
   ∃ g, run_step5 X s paths = Returned g ∧ file_list g = files ∧
     let convert_name := "convert_file-" +:+ token g in
     let merge_key := KStr ("write-metadata-" +:+ token g) in
     (∀ i path, files !! i = Some path →
        ∃ name, name_list g !! i = Some name ∧
          dsk g !! KTup convert_name i =
            Some {| t_func := F_convert_file;
                    t_args := [VStr path; VStr name; VStr (OUTPUT_PATH s);
                               VFloat (frac_size (opts s)); VFs (fs g);
                               VList (VStr <$> cols g); VDict (dtypes g)] |}) ∧
     dsk g !! merge_key =
       Some {| t_func := F_write_metadata;
               t_args := [VList (VTuple convert_name <$> seq 0 n);
                          VFs (fs g); VStr (OUTPUT_PATH s)] |} ∧
     dom (dsk g)
       = list_to_set (KTup convert_name <$> seq 0 n) ∪ {[ merge_key ]} ∧
     size (dsk g) = n + 1).
Proof.
  cbv zeta. unfold run_step5.
  destruct (select_files X s (get_fs X (INPUT_PATH s) "rb") paths)
    as [|x l] eqn:Hfiles.
  - split; [done|]. cbn. lia.
  - split; [cbn; lia|]. intros _. exists (step5 X s paths).
    split; [done|]. split; [exact Hfiles|].
    rewrite <- Hfiles. exact (dsk_contents X s paths Hnames).
Qed.

(** C1, counterexample to the claim as written: in a directory without a
    day file the selected list is empty, and the cell ends with
    [IndexError]; there is no dictionary, hence no metadata task in one. *)
Lemma C1_empty_file_list_counterexample :
  select_files Demo.X Demo.settings0
    (get_fs Demo.X (INPUT_PATH Demo.settings0) "rb") Demo.no_days = [] ∧
  run_step5 Demo.X Demo.settings0 Demo.no_days = Raised IndexError ∧
  ¬ ∃ g, run_step5 Demo.X Demo.settings0 Demo.no_days = Returned g.
Proof.
  assert (H : run_step5 Demo.X Demo.settings0 Demo.no_days = Raised IndexError)
    by (vm_compute; reflexivity).
  split; [vm_compute; reflexivity|]. split; [exact H|].
  intros [g Hg]. rewrite H in Hg. discriminate Hg.
Qed.

(** ** Dependencies between the tasks *)

Lemma constant_args_literal :
  forallb literal_key (Dask.mentions (VList (VStr <$> columns))
                       ++ Dask.mentions (VDict column_dtypes)) = true.
Proof. vm_compute. reflexivity. Qed.

Section DependencyFacts.
Context {table metadata sortkey : Type}.
Context (X : externals table metadata sortkey).
Context (s : settings) (paths : gset string).

Local Abbreviation g := (step5 X s paths).
Local Abbreviation conversion :=
  (convert_task (OUTPUT_PATH s) (frac_size (opts s)) (fs (step5 X s paths))).

Lemma literal_key_not_in_dsk (k : key) :
  literal_key k = true → k ∉ dom (dsk g).
Proof.
  intros Ha. destruct k as [[|a r]|]; try discriminate Ha.
  rewrite elem_of_dom, dsk_lookup_string.
  case_decide as E; [|by intros [??]].
  injection E as -> _. discriminate Ha.
Qed.

Lemma string_key_in_dsk (k : string) :
  KStr k ∈ dom (dsk g) ↔ k = write_meta_name g.
Proof.
  rewrite elem_of_dom, dsk_lookup_string.
  case_decide; split; first [done | by intros [??]].
Qed.

Lemma tuple_key_in_dsk (c : string) (i : nat) :
  KTup c i ∈ dom (dsk g) ↔
    c = convert_file_name g ∧ i < length (zip (file_list g) (name_list g)).
Proof.
  rewrite elem_of_dom, dsk_lookup_tuple. case_decide as Hc.
  - destruct (zip _ _ !! i) as [[p n]|] eqn:Hi.
    + apply lookup_lt_Some in Hi. split; [done|]. by eexists.
    + apply lookup_ge_None in Hi. split; [by intros [??]|]. lia.
  - split; [by intros [??]|]. by intros [? _].
Qed.

Context (Hfresh : write_meta_name g ∉
                    OUTPUT_PATH s :: file_list g ++ name_list g).

Lemma convert_task_independent (path name : string) :
  path ∈ file_list g → name ∈ name_list g →
  Dask.get_dependencies (dsk g) (conversion path name) = ∅.
Proof.
  intros Hp Hn. apply set_eq. intros k.
  split; [|intros Hk; by apply not_elem_of_empty in Hk].
  unfold Dask.get_dependencies. rewrite elem_of_filter, elem_of_list_to_set.
  intros [Hdom Hk]. exfalso.
  change (k ∈ [KStr path; KStr name; KStr (OUTPUT_PATH s)]
            ++ (Dask.mentions (VList (VStr <$> columns))
            ++ Dask.mentions (VDict column_dtypes)) ++ []) in Hk.
  rewrite app_nil_r in Hk. apply elem_of_app in Hk as [Hk|Hk].
  - assert (∃ x, k = KStr x ∧ x ∈ OUTPUT_PATH s :: file_list g ++ name_list g)
      as (x & -> & Hx).
    { rewrite !elem_of_cons in Hk. destruct Hk as [->|[->|[->|Hk]]].
      - eexists. split; [done|]. right. apply elem_of_app. by left.
      - eexists. split; [done|]. right. apply elem_of_app. by right.
      - eexists. split; [done|]. by left.
      - by apply elem_of_nil in Hk. }
    apply string_key_in_dsk in Hdom. subst x. by apply Hfresh.
  - pose proof constant_args_literal as Hlit.
    rewrite forallb_forall in Hlit.
    eapply literal_key_not_in_dsk; [|done]. apply Hlit.
    by apply list_elem_of_In.
Qed.

Lemma merge_task_dependencies :
  Dask.get_dependencies (dsk g) (merge_task X s paths) =
    dom (dsk g) ∖ {[ KStr (write_meta_name g) ]}.
Proof.
  apply set_eq. intros k.
  unfold Dask.get_dependencies. rewrite elem_of_filter, elem_of_list_to_set.
  rewrite elem_of_difference, elem_of_singleton.
  change (mjoin (Dask.mentions <$> t_args (merge_task X s paths)))
    with (Dask.mentions (VList (VTuple (convert_file_name g)
                                  <$> seq 0 (length (file_list g))))
          ++ [] ++ [KStr (OUTPUT_PATH s)] ++ []).
  assert (Hm : ∀ l, Dask.mentions (VList (VTuple (convert_file_name g) <$> l))
                    = KTup (convert_file_name g) <$> l).
  { induction l as [|i l IH]; [done|]. cbn in *. by rewrite IH. }
  rewrite Hm. split.
  - intros [Hdom Hk]. split; [done|]. intros ->.
    apply elem_of_app in Hk as [Hk|Hk].
    + by apply list_elem_of_fmap in Hk as (? & ? & _).
    + apply list_elem_of_singleton in Hk.
      apply (f_equal (λ k, match k with KStr x => x | KTup x _ => x end)) in Hk.
      change (write_meta_name g = OUTPUT_PATH s) in Hk.
      apply Hfresh. rewrite Hk. by left.
  - intros [Hdom Hne]. split; [done|]. destruct k as [k|c i].
    + apply string_key_in_dsk in Hdom. by subst k.
    + apply tuple_key_in_dsk in Hdom as [-> Hi].
      apply elem_of_app. left. apply list_elem_of_fmap. exists i. split; [done|].
      apply elem_of_seq. rewrite length_zip in Hi. lia.
Qed.

End DependencyFacts.

Lemma depth_S (dsk : gmap key task) (fuel : nat) (k : key) :
  Dask.depth dsk (S fuel) k =
    match dsk !! k with
    | None => 0
    | Some t =>
        S (max_list (Dask.depth dsk fuel
                       <$> elements (Dask.get_dependencies dsk t)))
    end.
Proof. reflexivity. Qed.

Lemma max_list_const (c : nat) (l : list nat) :
  Forall (λ x, x = c) l → max_list l = if decide (l = []) then 0 else c.
Proof.
  induction 1 as [|x l -> _ IH]; [done|]. simpl. rewrite IH.
  case_decide; simpl; lia.
Qed.

(** C3. Provided the string arguments of the tasks ([OUTPUT_PATH], the paths
    and the names) are not themselves the metadata key, and
    [_analyze_paths] returns one name per path: a conversion task has no
    dependency in the graph; the metadata task depends on all [n]
    conversion tasks and on nothing else; the [Delayed] handed to
    [compute] is keyed on the metadata task, and that key is the only task
    of the graph no task depends on; the longest chain of dependencies has
    at most two tasks, and exactly two once there is one input file. *)
Theorem C3_fan_in_depth_two {table metadata sortkey : Type}
    (X : externals table metadata sortkey) (s : settings)
    (paths : gset string)
    (Hnames : ∀ l fs, length (analyze_paths X l fs).2 = length l)
    (Hfresh : write_meta_name (step5 X s paths) ∉
                OUTPUT_PATH s :: file_list (step5 X s paths)
                              ++ name_list (step5 X s paths)) :
  let g := step5 X s paths in
  let n := length (file_list g) in
  let sink := KStr (d_key (conversion_delayed g)) in
  let conv := KTup (convert_file_name g) in
  (∀ i, i < n →
     ∃ t, dsk g !! conv i = Some t ∧ t_func t = F_convert_file ∧
          Dask.get_dependencies (dsk g) t = ∅) ∧
  (∃ t, dsk g !! sink = Some t ∧ t_func t = F_write_metadata ∧
        Dask.get_dependencies (dsk g) t = list_to_set (conv <$> seq 0 n)) ∧
  sink = KStr (write_meta_name g) ∧
  layers (d_dask (conversion_delayed g)) !! d_key (conversion_delayed g)
    = Some (dsk g) ∧
  dom (dsk g) = list_to_set (conv <$> seq 0 n) ∪ {[ sink ]} ∧
  (∀ k, k ∈ dom (dsk g) →
     (k = sink ↔ ∀ k', ¬ Dask.depends (dsk g) k' k)) ∧
  (∀ fuel, 2 ≤ fuel →
     Dask.depth (dsk g) fuel sink ≤ 2 ∧
     (0 < n → Dask.depth (dsk g) fuel sink = 2)).
Proof.
  cbv zeta. set (g := step5 X s paths) in *.
  set (conv := KTup (convert_file_name g)).
  set (sink := KStr (d_key (conversion_delayed g))).
  assert (Hlen : length (name_list g) = length (file_list g)) by apply Hnames.
  assert (Hzip : length (zip (file_list g) (name_list g)) = length (file_list g)).
  { rewrite length_zip. lia. }
  assert (Hdom : dom (dsk g) =
                 list_to_set (conv <$> seq 0 (length (file_list g))) ∪ {[ sink ]}).
  { unfold g at 1. rewrite dsk_dom. fold g. by rewrite Hzip. }
  assert (Hmerge : Dask.get_dependencies (dsk g) (merge_task X s paths)
                   = list_to_set (conv <$> seq 0 (length (file_list g)))).
  { unfold g at 1. rewrite merge_task_dependencies by done. fold g.
    rewrite Hdom. apply set_eq. intros k.
    rewrite elem_of_difference, elem_of_union.
    rewrite elem_of_list_to_set, list_elem_of_fmap. split.
    - intros [[Hk|Hk] Hne]; [done|]. by exfalso.
    - intros (i & -> & Hi). split; [left; eauto|].
      intros Hk%elem_of_singleton. discriminate Hk. }
  assert (Hconv : ∀ i, i < length (file_list g) →
            ∃ t, dsk g !! conv i = Some t ∧ t_func t = F_convert_file ∧
                 Dask.get_dependencies (dsk g) t = ∅).
  { intros i Hi.
    destruct (lookup_lt_is_Some_2 (file_list g) i Hi) as [p Hp].
    destruct (lookup_lt_is_Some_2 (name_list g) i) as [m Hm].
    { by rewrite Hlen. }
    exists (convert_task (OUTPUT_PATH s) (frac_size (opts s)) (fs g) p m).
    split; [|split; [done|]].
    - unfold conv, g. rewrite dsk_lookup_tuple. fold g.
      rewrite decide_True by done.
      by erewrite (proj2 (lookup_zip_with_Some pair _ _ i (p, m))); eauto.
    - apply convert_task_independent; [done| |];
        by eapply list_elem_of_lookup_2. }
  assert (Hsink : dsk g !! sink = Some (merge_task X s paths))
    by apply dsk_lookup_merge.
  split; [done|]. split; [by exists (merge_task X s paths)|].
  split; [done|]. split; [apply lookup_singleton_eq|]. split; [done|]. split.
  - intros k Hk. split.
    + intros -> k' (t & Ht & Hdep).
      assert (k' ∈ dom (dsk g)) as Hk' by (apply elem_of_dom; eauto).
      rewrite Hdom, elem_of_union, elem_of_singleton in Hk'.
      destruct Hk' as [Hk'| ->].
      * apply elem_of_list_to_set, list_elem_of_fmap in Hk' as (i & -> & Hi).
        apply elem_of_seq in Hi. destruct (Hconv i) as (t' & Ht' & _ & Hno); [lia|].
        rewrite Ht in Ht'. injection Ht' as <-. rewrite Hno in Hdep.
        by apply not_elem_of_empty in Hdep.
      * rewrite Hsink in Ht. injection Ht as <-. rewrite Hmerge in Hdep.
        by apply elem_of_list_to_set, list_elem_of_fmap in Hdep as (? & ? & _).
    + intros Hnone. rewrite Hdom, elem_of_union, elem_of_singleton in Hk.
      destruct Hk as [Hk|Hk]; [|done]. exfalso.
      apply (Hnone sink). exists (merge_task X s paths). split; [done|].
      by rewrite Hmerge.
  - intros [|[|fuel]] Hfuel; try lia. clear Hfuel.
    rewrite depth_S, Hsink, Hmerge.
    rewrite (max_list_const 1).
    + case_decide as He; split; try lia. intros Hn. exfalso.
      apply fmap_nil_inv, elements_empty_inv in He.
      destruct (file_list g) as [|p l] eqn:Hl; [simpl in Hn; lia|].
      apply (not_elem_of_empty (C := gset key) (conv 0)). rewrite <- He.
      apply elem_of_list_to_set. simpl. by left.
    + apply Forall_fmap, Forall_forall. intros k Hk.
      apply elem_of_elements, elem_of_list_to_set, list_elem_of_fmap in Hk
        as (i & -> & Hi).
      apply elem_of_seq in Hi. destruct (Hconv i) as (t' & Ht' & _ & Hno); [lia|].
      unfold compose. by rewrite depth_S, Ht', Hno, elements_empty.
Qed.

(** ** Selecting the input files *)

Lemma endswith_spec (s suf : string) :
  PyStr.endswith s suf = true ↔ ∃ p, s = p +:+ suf.
Proof.
  induction s as [|a s IH]; simpl.
  - rewrite orb_false_r, bool_decide_eq_true. split.
    + intros <-. by exists "".
    + intros [[|b p] Hp]; simpl in Hp; [done|discriminate].
  - rewrite orb_true_iff, bool_decide_eq_true, IH. split.
    + intros [<-|[p ->]]; [by exists ""|by exists (String a p)].
    + intros [[|b p] Hp]; simpl in Hp; [by left|].
      injection Hp as -> ->. right. by exists p.
Qed.

Section SortedFacts.
Context {A K : Type} (lt : K → K → bool) (sort_key : A → K).

Local Abbreviation ordered := (λ a b, lt (sort_key b) (sort_key a) = false).

Lemma insert_sorted_perm (x : A) (l : list A) :
  insert_sorted lt sort_key x l ≡ₚ x :: l.
Proof.
  induction l as [|y l IH]; simpl; [done|].
  destruct (lt (sort_key y) (sort_key x)); [|done].
  rewrite IH. apply Permutation_swap.
Qed.

Lemma sorted_perm (l : list A) : sorted lt sort_key l ≡ₚ l.
Proof.
  induction l as [|x l IH]; simpl; [done|].
  by rewrite insert_sorted_perm, IH.
Qed.

Context (Hasym : ∀ a b, lt a b = true → lt b a = false).
Context (Htrans : ∀ a b c, lt b a = false → lt c b = false → lt c a = false).

Lemma insert_sorted_ordered (x : A) (l : list A) :
  StronglySorted ordered l →
  StronglySorted ordered (insert_sorted lt sort_key x l).
Proof.
  induction 1 as [|y l Hl IH Hy]; simpl.
  - by repeat constructor.
  - destruct (lt (sort_key y) (sort_key x)) eqn:Hyx.
    + constructor; [done|].
      rewrite insert_sorted_perm. constructor; [by apply Hasym|done].
    + constructor; [by constructor|]. constructor; [done|].
      eapply Forall_impl; [exact Hy|]. intros z Hz. simpl in *. eauto.
Qed.

Lemma sorted_ordered (l : list A) :
  StronglySorted ordered (sorted lt sort_key l).
Proof.
  induction l as [|x l IH]; simpl; [constructor|].
  by apply insert_sorted_ordered.
Qed.

(** a list that is already in order is returned as it is: elements with
    equal keys are never exchanged *)
Lemma sorted_of_ordered (l : list A) :
  StronglySorted ordered l → sorted lt sort_key l = l.
Proof.
  induction 1 as [|x l Hl IH Hx]; simpl; [done|]. rewrite IH.
  destruct Hx as [|y r Hy _]; simpl; [done|]. by rewrite Hy.
Qed.

End SortedFacts.

Lemma slice_to_positive {A} (l : list A) (k : Z) :
  (0 < k)%Z → Py.slice_to l k = take (Z.to_nat k) l.
Proof. intros Hk. unfold Py.slice_to. by rewrite decide_True by lia. Qed.

Lemma slice_to_negative {A} (l : list A) (k : Z) :
  (k < 0)%Z → Py.slice_to l k = take (length l - Z.to_nat (- k)) l.
Proof. intros Hk. unfold Py.slice_to. by rewrite decide_False by lia. Qed.

(** C4, in the form the code satisfies.  The file list is made of exactly
    the paths the glob [INPUT_PATH/day_*] returns that do not end with
    [parquet], in the order of their natural sort keys (for a key order
    that is asymmetric and whose complement is transitive); with [max_day]
    [None] or [0] that is the whole list, with a positive [max_day] its
    first [max_day] entries, and with a negative [max_day] all but its last
    [-max_day] entries. *)
Theorem C4_file_selection {table metadata sortkey : Type}
    (X : externals table metadata sortkey) (s : settings)
    (fs : filesystem) (paths : gset string)
    (Hasym : ∀ a b, key_lt X a b = true → key_lt X b a = false)
    (Htrans : ∀ a b c, key_lt X b a = false → key_lt X c b = false →
                       key_lt X c a = false) :
  let matching := glob fs paths (INPUT_PATH s +:+ sep fs +:+ "day_*") in
  let kept := filter (λ x, PyStr.endswith x "parquet" = false) matching in
  let all_days := sorted (key_lt X) (natural_sort_key X) (globbed s fs paths) in
  all_days ≡ₚ kept ∧
  (∀ x, x ∈ all_days ↔ x ∈ matching ∧ ¬ ∃ p, x = p +:+ "parquet") ∧
  StronglySorted (λ a b, key_lt X (natural_sort_key X b)
                           (natural_sort_key X a) = false) all_days ∧
  select_files X s fs paths =
    match max_day (opts s) with
    | None => all_days
    | Some k =>
        if decide (k = 0)%Z then all_days
        else if decide (0 < k)%Z then take (Z.to_nat k) all_days
        else take (length all_days - Z.to_nat (- k)) all_days
    end ∧
  file_list (step5 X s paths)
    = select_files X s (get_fs X (INPUT_PATH s) "rb") paths.
Proof.
  cbv zeta. split; [|split; [|split; [|split]]].
  - by rewrite sorted_perm.
  - intros x. rewrite sorted_perm. unfold globbed.
    rewrite list_elem_of_filter, <- endswith_spec, not_true_iff_false.
    tauto.
  - by apply sorted_ordered.
  - unfold select_files. destruct (max_day (opts s)) as [k|]; simpl; [|done].
    case_decide as Hk.
    + by rewrite bool_decide_eq_false_2 by (intros ?; done).
    + rewrite bool_decide_eq_true_2 by done.
      case_decide; [by apply slice_to_positive|apply slice_to_negative; lia].
  - reflexivity.
Qed.

(** C4, counterexample to the claim as written: [-1] is a truthy [max_day],
    and the list is then cut to all but its last entry, which is not its
    first [-1] entries. *)
Lemma C4_negative_max_day_counterexample :
  let s := step2 Demo.environ (Demo.with_max_day (Some (-1)%Z)) in
  let all_days :=
    sorted (key_lt Demo.X) (natural_sort_key Demo.X)
           (globbed s Demo.local_fs (dom Demo.files)) in
  Py.truthy (max_day (opts s)) = true ∧
  all_days = ["/data/day_0"; "/data/day_2"; "/data/day_10"] ∧
  file_list (step5 Demo.X s (dom Demo.files)) = ["/data/day_0"; "/data/day_2"] ∧
  file_list (step5 Demo.X s (dom Demo.files)) ≠ take (Z.to_nat (-1)) all_days ∧
  Z.of_nat (length (file_list (step5 Demo.X s (dom Demo.files)))) ≠ (-1)%Z.
Proof. vm_compute. repeat split; congruence. Qed.

(** ** The cluster, the memory pool and the scheduler *)

Lemma split_length (c : ascii) (s : string) :
  length (PyStr.split c s) = S (PyStr.count c s).
Proof.
  induction s as [|a s IH]; simpl; [done|].
  case_bool_decide; simpl; [by rewrite IH|].
  destruct (PyStr.split c s); simpl in *; lia.
Qed.

(** C5. A client is created exactly when [CUDA_VISIBLE_DEVICES] has more
    than one comma-separated entry (one more entry than it has commas) and
    [allow_multi_gpu] is [True].  Step 6 calls [compute] on the [Delayed]
    whose graph holds the task dictionary built in Step 5, with no
    [scheduler] argument when there is a client and with
    [scheduler="synchronous"] exactly when there is none. *)
Theorem C5_client_and_scheduler {table metadata sortkey : Type}
    (X : externals table metadata sortkey)
    (environ : gmap string string) (o : options)
    (paths : gset string) (local : process) :
  let s := step2 environ o in
  let entries := PyStr.split "," (default "0" (environ !! "CUDA_VISIBLE_DEVICES")) in
  let c := (step4 X s local).1 in
  let g := step5 X s paths in
  let call := step6 c (conversion_delayed g) in
  n_workers s = length entries ∧
  length entries
    = S (PyStr.count "," (default "0" (environ !! "CUDA_VISIBLE_DEVICES"))) ∧
  (is_Some c ↔ 1 < length entries ∧ allow_multi_gpu o = true) ∧
  (∀ cl, c = Some cl →
     length (workers (connected cl)) = length entries ∧
     devices (connected cl) = CUDA_VISIBLE_DEVICES s) ∧
  computed call = conversion_delayed g ∧
  layers (d_dask (computed call)) !! d_key (computed call) = Some (dsk g) ∧
  (c = None ↔ scheduler call = Some "synchronous") ∧
  (is_Some c ↔ scheduler call = None).
Proof.
  cbv zeta. set (s := step2 environ o).
  split; [done|]. split; [apply split_length|].
  assert (Hc : (step4 X s local).1 =
               if bool_decide (1 < n_workers s) && allow_multi_gpu o
               then Some (if use_rmm_pool o
                          then client_run (_pool X (8 # 10))
                                 (Client (LocalCUDACluster (n_workers s)
                                            (CUDA_VISIBLE_DEVICES s)))
                          else Client (LocalCUDACluster (n_workers s)
                                         (CUDA_VISIBLE_DEVICES s)))
               else None).
  { unfold step4. change (opts s) with o.
    by destruct (bool_decide _ && _), (use_rmm_pool o). }
  rewrite Hc. change (n_workers s) with
    (length (PyStr.split "," (default "0" (environ !! "CUDA_VISIBLE_DEVICES")))).
  destruct (bool_decide _ && allow_multi_gpu o) eqn:Hb.
  - apply andb_true_iff in Hb as [Hn%bool_decide_eq_true Ha].
    split; [by split; [|eexists]|]. split.
    { intros cl [= <-]. destruct (use_rmm_pool o); simpl;
        by rewrite ?length_fmap, length_replicate. }
    split; [done|]. split; [apply lookup_singleton_eq|].
    split; [by split|]. simpl. split; [done|by eexists].
  - apply andb_false_iff in Hb.
    split.
    { split; [by intros [??]|]. intros [Hn Ha]. exfalso.
      destruct Hb as [Hb|Hb]; [|congruence].
      by apply bool_decide_eq_false in Hb. }
    split; [done|]. split; [done|]. split; [apply lookup_singleton_eq|].
    split; [by split|]. simpl. split; [by intros [??]|done].
Qed.

(** C6. In the conversion notebook: with [use_rmm_pool] [False] no process
    makes a call to [rmm]; with it [True] and a client, every worker makes
    the one call [rmm.reinitialize(pool_allocator=True,
    initial_pool_size=0.8 * device_mem_size())] and the local process
    makes none; with it [True] and no client, the local process makes that
    call.  In the training notebook the process calls [rmm.reinitialize]
    twice: once with a pool of 0.8 times the free device memory, then with
    [pool_allocator=False]. *)
Theorem C6_rmm_configuration {table metadata sortkey : Type}
    (X : externals table metadata sortkey) (s : settings)
    (local p : process) :
  let pool := {| pool_allocator := true;
                 initial_pool_size :=
                   Some (Qmult (8 # 10)
                           (inject_Z (device_mem_size X None))) |} in
  let c := (step4 X s local).1 in
  let local' := (step4 X s local).2 in
  let worker_calls := default [] ((λ cl, workers (connected cl)) <$> c) in
  (use_rmm_pool (opts s) = false →
     local' = local ∧ Forall (λ w, w = []) worker_calls) ∧
  (use_rmm_pool (opts s) = true →
     match c with
     | Some cl =>
         local' = local ∧
         length worker_calls = n_workers s ∧ 1 < n_workers s ∧
         Forall (λ w, w = [pool]) worker_calls
     | None => local' = local ++ [pool]
     end) ∧
  Training.run X p =
    p ++ [ {| pool_allocator := true;
              initial_pool_size :=
                Some (Qmult (8 # 10)
                        (inject_Z (device_mem_size X (Some "free")))) |};
           {| pool_allocator := false; initial_pool_size := None |} ].
Proof.
  cbv zeta. unfold step4.
  destruct (bool_decide (1 < n_workers s)) eqn:Hn;
    destruct (allow_multi_gpu (opts s)), (use_rmm_pool (opts s)); simpl;
    (split; [intros; try discriminate|split; [intros; try discriminate|]]);
    try (unfold Training.run, Training.release_pool, Training.init_pool;
         by rewrite <- app_assoc).
  - split; [done|]. split; [by rewrite length_fmap, length_replicate|].
    apply bool_decide_eq_true in Hn. split; [done|].
    apply Forall_fmap, Forall_replicate. done.
  - split; [done|]. by apply Forall_replicate.
  - done.
  - by split.
  - done.
  - by split.
  - done.
  - by split.
Qed.

(** ** The task functions *)

Section TaskFacts.
Context {table metadata sortkey : Type}.
Context (X : externals table metadata sortkey).

Local Abbreviation world := (world table metadata).

Lemma tables_at_insert (d : gmap string (content table metadata))
    (path : string) (ts : list table) :
  tables_at (<[path := Parquet ts]> d) path = ts.
Proof. unfold tables_at. by rewrite lookup_insert_eq. Qed.

Lemma bind_run {A B} (m : M table metadata A) (k : A → M table metadata B)
    (w w' : world) (a : A) :
  m w = (a, w') → bind m k w = k a w'.
Proof. unfold bind. by intros ->. Qed.

Lemma emit_run (e : event table metadata) (w : world) :
  emit e w = (tt, {| disk := disk w; trace := trace w ++ [e] |}).
Proof. reflexivity. Qed.

Lemma store_run (path : string) (c : content table metadata) (w : world) :
  store path c w = (tt, {| disk := <[path := c]> (disk w); trace := trace w |}).
Proof. reflexivity. Qed.

Lemma read_disk_run (w : world) : read_disk w = (disk w, w).
Proof. reflexivity. Qed.

Lemma ParquetWriter_run (path : string) (c : option string) (w : world) :
  ParquetWriter path c w =
    (Writer path c, {| disk := <[path := Parquet []]> (disk w);
                       trace := trace w ++ [EvParquetWriter path c] |}).
Proof. reflexivity. Qed.

Lemma iterate_run (a : iter_args) (w : world) :
  iterate X a w =
    (GPUFileIterator X (disk w) a,
     {| disk := disk w; trace := trace w ++ [EvGPUFileIterator a] |}).
Proof. reflexivity. Qed.

Lemma write_table_run (wr : writer) (t : table) (w : world) :
  write_table wr t w =
    (tt, {| disk := <[w_path wr :=
                        Parquet (tables_at (disk w) (w_path wr) ++ [t])]>
                      (disk w);
            trace := trace w ++ [EvWriteTable (w_path wr) t] |}).
Proof. reflexivity. Qed.

Lemma writer_close_run (wr : writer) (fn : string) (w : world) :
  writer_close X wr fn w =
    (writer_metadata X (tables_at (disk w) (w_path wr)) fn,
     {| disk := disk w; trace := trace w ++ [EvWriterClose (w_path wr) fn] |}).
Proof. reflexivity. Qed.

Lemma for_each_cons {A} (x : A) (r : list A) (body : A → M table metadata unit) :
  for_each (x :: r) body = bind (body x) (λ _, for_each r body).
Proof. reflexivity. Qed.

(** writing the chunks one by one appends them to the file, in order *)
Lemma write_tables (wr : writer) (chunks ts : list table)
    (d : gmap string (content table metadata)) (w : world) :
  disk w = <[w_path wr := Parquet ts]> d →
  for_each chunks (λ gdf, write_table wr gdf) w
  = (tt, {| disk := <[w_path wr := Parquet (ts ++ chunks)]> d;
            trace := trace w ++ (EvWriteTable (w_path wr) <$> chunks) |}).
Proof.
  revert ts w. induction chunks as [|t chunks IH]; intros ts w Hw.
  - destruct w as [dw tw]. simpl in *. unfold ret. by rewrite !app_nil_r, Hw.
  - rewrite for_each_cons.
    erewrite bind_run by apply write_table_run.
    erewrite (IH (ts ++ [t])).
    + cbn [trace disk fmap list_fmap]. by rewrite <- !app_assoc.
    + cbn [disk]. by rewrite Hw, tables_at_insert, insert_insert_eq.
Qed.

Lemma convert_file_run (path name out_dir : string) (frac : Q)
    (fs : filesystem) (cols : list string) (dtypes : gmap string dtype)
    (w : world) :
  let out_path := out_dir +:+ sep fs +:+ name +:+ ".parquet" in
  let args := {| it_path := path; it_engine := "csv"; it_fs := fs;
                 it_names := cols; it_gpu_memory_frac := frac;
                 it_sep := tab; it_dtypes := dtypes |} in
  let chunks := GPUFileIterator X (<[out_path := Parquet []]> (disk w)) args in
  _convert_file X path name out_dir frac fs cols dtypes w =
    (writer_metadata X chunks (name +:+ ".parquet"),
     {| disk := <[out_path := Parquet chunks]> (disk w);
        trace := trace w
                 ++ [EvParquetWriter out_path None; EvGPUFileIterator args]
                 ++ (EvWriteTable out_path <$> chunks)
                 ++ [EvWriterClose out_path (name +:+ ".parquet")] |}).
Proof.
  cbv zeta. unfold _convert_file. cbn [PyStr.join].
  erewrite bind_run by apply ParquetWriter_run.
  erewrite bind_run by apply iterate_run.
  erewrite bind_run by (apply (write_tables _ _ []); reflexivity).
  erewrite bind_run by apply writer_close_run.
  unfold ret. cbn [disk trace w_path]. rewrite tables_at_insert.
  by rewrite <- !app_assoc.
Qed.

Lemma write_metadata_run (md_list : list metadata) (fs : filesystem)
    (path : string) (w : world) :
  let metadata_path := path +:+ sep fs +:+ "_metadata" in
  _write_metadata X md_list fs path w =
    match md_list with
    | [] => (true, w)
    | [md] =>
        (true, {| disk := <[metadata_path := MetaFile md]> (disk w);
                  trace := trace w ++ [EvOpen metadata_path "wb";
                                       EvToFile metadata_path md] |})
    | _ :: _ :: _ =>
        let merged := merge_parquet_filemetadata X md_list in
        (true, {| disk := <[metadata_path := MetaFile merged]> (disk w);
                  trace := trace w ++ [EvMerge md_list;
                                       EvOpen metadata_path "wb";
                                       EvToFile metadata_path merged] |})
    end.
Proof.
  cbv zeta. destruct md_list as [|md [|md' l]]; [by destruct w|..].
  - unfold _write_metadata. rewrite decide_False by (simpl; lia).
    unfold dump_metadata, bind, emit, store, ret. cbn [disk trace PyStr.join].
    by rewrite insert_insert_eq, <- !app_assoc.
  - unfold _write_metadata. rewrite decide_True by (simpl; lia).
    unfold dump_metadata, bind, emit, store, ret. cbn [disk trace PyStr.join].
    by rewrite insert_insert_eq, <- !app_assoc.
Qed.

End TaskFacts.

(** C2. [_convert_file] makes one writer, for the path [out_dir], the
    separator of [fs], then ["{name}.parquet"], with no compression; reads
    [path] with one [GPUFileIterator] call with [engine="csv"], the tab
    separator and [gpu_memory_frac=frac_size]; writes every chunk, in order,
    to that writer; closes the writer; and returns the metadata the close
    returned.  That path then holds the chunks, no other path is changed,
    and these library calls are all the run does. *)
Theorem C2_convert_file {table metadata sortkey : Type}
    (X : externals table metadata sortkey)
    (path name out_dir : string) (frac_size : Q) (fs : filesystem)
    (cols : list string) (dtypes : gmap string dtype)
    (w : world table metadata) :
  let out_path := PyStr.join (sep fs) [out_dir; name +:+ ".parquet"] in
  let args := {| it_path := path; it_engine := "csv"; it_fs := fs;
                 it_names := cols; it_gpu_memory_frac := frac_size;
                 it_sep := String (ascii_of_nat 9) ""; it_dtypes := dtypes |} in
  let md := (_convert_file X path name out_dir frac_size fs cols dtypes w).1 in
  let w' := (_convert_file X path name out_dir frac_size fs cols dtypes w).2 in
  ∃ chunks,
    chunks = GPUFileIterator X (<[out_path := Parquet []]> (disk w)) args ∧
    appended w w' =
      [EvParquetWriter out_path None; EvGPUFileIterator args]
      ++ (EvWriteTable out_path <$> chunks)
      ++ [EvWriterClose out_path (name +:+ ".parquet")] ∧
    disk w' !! out_path = Some (Parquet chunks) ∧
    (∀ other, other ≠ out_path → disk w' !! other = disk w !! other) ∧
    md = writer_metadata X chunks (name +:+ ".parquet").
Proof.
  cbv zeta. rewrite convert_file_run. eexists. split; [reflexivity|].
  unfold appended. simpl. split; [by rewrite drop_app_length|].
  split; [apply lookup_insert_eq|]. split; [|done].
  intros other Hother. by apply lookup_insert_ne.
Qed.

(** C7. [_write_metadata] returns [True] for every [md_list].  It writes
    the file [path], separator, ["_metadata"] exactly when [md_list] is not
    empty.  With an empty list the world is left as it was; with one
    element that element is written and the merge is not called; with two
    or more the merge of the list is written. *)
Theorem C7_write_metadata {table metadata sortkey : Type}
    (X : externals table metadata sortkey)
    (md_list : list metadata) (fs : filesystem) (path : string)
    (w : world table metadata) :
  let metadata_path := PyStr.join (sep fs) [path; "_metadata"] in
  let r := (_write_metadata X md_list fs path w).1 in
  let w' := (_write_metadata X md_list fs path w).2 in
  r = true ∧
  ((∃ md, EvToFile metadata_path md ∈ appended w w') ↔ md_list ≠ []) ∧
  (md_list = [] → w' = w) ∧
  (∀ md, md_list = [md] →
     appended w w' = [EvOpen metadata_path "wb"; EvToFile metadata_path md] ∧
     disk w' = <[metadata_path := MetaFile md]> (disk w)) ∧
  (1 < length md_list →
     appended w w' = [EvMerge md_list; EvOpen metadata_path "wb";
                      EvToFile metadata_path
                        (merge_parquet_filemetadata X md_list)] ∧
     disk w' = <[metadata_path :=
                   MetaFile (merge_parquet_filemetadata X md_list)]> (disk w)) ∧
  (∀ other, other ≠ metadata_path → disk w' !! other = disk w !! other).
Proof.
  cbv zeta. rewrite write_metadata_run. unfold appended.
  destruct md_list as [|md [|md' l]]; cbv zeta; simpl.
  - rewrite drop_ge by lia.
    repeat split; try done; try (intros; lia).
    intros [md Hmd]. by apply elem_of_nil in Hmd.
  - rewrite drop_app_length.
    repeat split; try done; try (intros; lia).
    + intros _. exists md. right. by left.
    + by simplify_eq.
    + by simplify_eq.
    + intros other Hother. by apply lookup_insert_ne.
  - rewrite drop_app_length.
    repeat split; try done.
    + intros _. eexists. right. right. by left.
    + intros other Hother. by apply lookup_insert_ne.
Qed.

(** ** The cells run on the small installation *)

Module Runs.
Import Demo.

Example files_selected :
  file_list cell0 = ["/data/day_0"; "/data/day_2"; "/data/day_10"] ∧
  name_list cell0 = ["day_0"; "day_2"; "day_10"].
Proof. vm_compute. done. Qed.

Example keys_built :
  token cell0 = "200" ∧
  dom (dsk cell0) =
    {[ KTup "convert_file-200" 0; KTup "convert_file-200" 1;
       KTup "convert_file-200" 2; KStr "write-metadata-200" ]}.
Proof. split; [by vm_compute|]. apply (bool_decide_unpack _). by vm_compute. Qed.

Example max_day_zero_keeps_all :
  file_list (step5 X (step2 environ (with_max_day (Some 0%Z))) (dom files))
    = file_list cell0.
Proof. vm_compute. done. Qed.

Example max_day_two :
  file_list (step5 X (step2 environ (with_max_day (Some 2%Z))) (dom files))
    = ["/data/day_0"; "/data/day_2"].
Proof. vm_compute. done. Qed.

Example two_devices : n_workers settings0 = 2.
Proof. vm_compute. done. Qed.

Example no_client_by_default :
  step4 X settings0 [] = (None, []) ∧
  scheduler (step6 (step4 X settings0 []).1 (conversion_delayed cell0))
    = Some "synchronous".
Proof. vm_compute. done. Qed.

Example day_2_converted :
  let r := _convert_file X "/data/day_2" "day_2" "/out" (15 # 100)
             local_fs columns column_dtypes start in
  r.1 = ["day_2.parquet:1"] ∧
  disk r.2 !! "/out/day_2.parquet" = Some (Parquet [["3"]]).
Proof. vm_compute. done. Qed.

Example pool_on_every_worker :
  let pool := {| pool_allocator := true;
                 initial_pool_size := Some (Qmult (8 # 10) (inject_Z 16000)) |} in
  (λ c, workers (connected c)) <$> (step4 X (step2 environ (multi_gpu true)) []).1
    = Some [[pool]; [pool]] ∧
  (step4 X (step2 environ (multi_gpu true)) []).2 = [].
Proof. vm_compute. done. Qed.

Example one_metadata_written_as_is :
  let r := _write_metadata X [["day_2.parquet:1"]] local_fs "/out" start in
  r.1 = true ∧
  disk r.2 !! "/out/_metadata" = Some (MetaFile ["day_2.parquet:1"]) ∧
  trace r.2 = [EvOpen "/out/_metadata" "wb";
               EvToFile "/out/_metadata" ["day_2.parquet:1"]].
Proof. vm_compute. done. Qed.

Example no_metadata_no_file :
  _write_metadata X [] local_fs "/out" start = (true, start).
Proof. vm_compute. done. Qed.

End Runs.

(** C1, on the small installation. *)
Lemma C1_one_task_per_file_witness :
  (∀ l fs, length (analyze_paths Demo.X l fs).2 = length l) ∧
  0 < length (select_files Demo.X Demo.settings0
                (get_fs Demo.X (INPUT_PATH Demo.settings0) "rb")
                (dom Demo.files)) ∧
  ∃ g, run_step5 Demo.X Demo.settings0 (dom Demo.files) = Returned g ∧
       file_list g = ["/data/day_0"; "/data/day_2"; "/data/day_10"] ∧
       size (dsk g) = 3 + 1.
Proof.
  assert (H : ∀ l fs, length (analyze_paths Demo.X l fs).2 = length l)
    by (intros; apply length_fmap).
  assert (Hn : 0 < length (select_files Demo.X Demo.settings0
                             (get_fs Demo.X (INPUT_PATH Demo.settings0) "rb")
                             (dom Demo.files)))
    by (vm_compute; lia).
  split; [exact H|]. split; [exact Hn|].
  destruct (proj2 (C1_one_task_per_file Demo.X Demo.settings0
                     (dom Demo.files) H) Hn)
    as (g & Hrun & Hfiles & _ & _ & _ & Hsize).
  exists g. split; [exact Hrun|]. split.
  - rewrite Hfiles. by vm_compute.
  - exact Hsize.
Defined.

(** C3, on the small installation. *)
Lemma C3_fan_in_depth_two_witness :
  (∀ l fs, length (analyze_paths Demo.X l fs).2 = length l) ∧
  (write_meta_name Demo.cell0 ∉
     OUTPUT_PATH Demo.settings0
       :: file_list Demo.cell0 ++ name_list Demo.cell0) ∧
  0 < length (file_list Demo.cell0) ∧
  (∀ fuel, 2 ≤ fuel →
     Dask.depth (dsk Demo.cell0) fuel
       (KStr (d_key (conversion_delayed Demo.cell0))) = 2).
Proof.
  assert (H : ∀ l fs, length (analyze_paths Demo.X l fs).2 = length l)
    by (intros; apply length_fmap).
  assert (Hfresh : write_meta_name Demo.cell0 ∉
            OUTPUT_PATH Demo.settings0
              :: file_list Demo.cell0 ++ name_list Demo.cell0).
  { apply (bool_decide_unpack _). by vm_compute. }
  assert (Hn : 0 < length (file_list Demo.cell0)) by (vm_compute; lia).
  split; [exact H|]. split; [exact Hfresh|]. split; [exact Hn|].
  intros fuel Hfuel.
  destruct (C3_fan_in_depth_two Demo.X Demo.settings0 (dom Demo.files) H Hfresh)
    as (_ & _ & _ & _ & _ & _ & Hdepth).
  by apply Hdepth.
Defined.

(** C4, on the small installation. *)
Lemma C4_file_selection_witness :
  (∀ a b, key_lt Demo.X a b = true → key_lt Demo.X b a = false) ∧
  (∀ a b c, key_lt Demo.X b a = false → key_lt Demo.X c b = false →
            key_lt Demo.X c a = false) ∧
  StronglySorted (λ a b, key_lt Demo.X (natural_sort_key Demo.X b)
                           (natural_sort_key Demo.X a) = false)
    (sorted (key_lt Demo.X) (natural_sort_key Demo.X)
       (globbed Demo.settings0 Demo.local_fs (dom Demo.files))) ∧
  select_files Demo.X Demo.settings0 Demo.local_fs (dom Demo.files)
    = ["/data/day_0"; "/data/day_2"; "/data/day_10"].
Proof.
  assert (Hasym : ∀ a b, key_lt Demo.X a b = true → key_lt Demo.X b a = false).
  { intros a b. simpl. rewrite N.ltb_lt, N.ltb_ge. lia. }
  assert (Htrans : ∀ a b c, key_lt Demo.X b a = false →
                            key_lt Demo.X c b = false →
                            key_lt Demo.X c a = false).
  { intros a b c. simpl. rewrite !N.ltb_ge. lia. }
  split; [exact Hasym|]. split; [exact Htrans|].
  destruct (C4_file_selection Demo.X Demo.settings0 Demo.local_fs
              (dom Demo.files) Hasym Htrans) as (_ & _ & Hsorted & _ & _).
  split; [exact Hsorted|]. by vm_compute.
Defined.


(** ** Strings *)

Lemma str_app_cons (x : ascii) (a b : string) :
  String x a +:+ b = String x (a +:+ b).
Proof. reflexivity. Qed.

Lemma str_app_assoc (a b c : string) : (a +:+ b) +:+ c = a +:+ (b +:+ c).
Proof. induction a as [|x a IH]; [done|]. by rewrite !str_app_cons, IH. Qed.

Lemma str_app_nil_r (a : string) : a +:+ "" = a.
Proof. induction a as [|x a IH]; [done|]. by rewrite str_app_cons, IH. Qed.

Lemma str_length_app (a b : string) :
  String.length (a +:+ b) = String.length a + String.length b.
Proof.
  induction a as [|x a IH]; [done|]. rewrite str_app_cons. cbn. by rewrite IH.
Qed.

(** appending the same text to two strings keeps them apart *)
Lemma str_app_inj_r (a b c : string) : a +:+ c = b +:+ c → a = b.
Proof.
  revert b. induction a as [|x a IH]; intros [|y b] H.
  - done.
  - apply (f_equal String.length) in H.
    rewrite !str_length_app in H. cbn in H. lia.
  - apply (f_equal String.length) in H.
    rewrite !str_length_app in H. cbn in H. lia.
  - rewrite !str_app_cons in H. injection H as -> H. f_equal. by apply IH.
Qed.

Lemma endswith_app (a suf : string) : PyStr.endswith (a +:+ suf) suf = true.
Proof. apply endswith_spec. by exists a. Qed.

(** * Further properties *)

(** ** More on the file selection *)

Section SelectionFacts.
Context {table metadata sortkey : Type}.
Context (X : externals table metadata sortkey).
Context (s : settings) (fs : filesystem) (paths : gset string).

Local Abbreviation all_days :=
  (sorted (key_lt X) (natural_sort_key X) (globbed s fs paths)).

Lemma select_files_cases :
  select_files X s fs paths =
    match max_day (opts s) with
    | None => all_days
    | Some k => if decide (k = 0)%Z then all_days else Py.slice_to all_days k
    end.
Proof.
  unfold select_files. destruct (max_day (opts s)) as [k|]; simpl; [|done].
  case_decide as Hk.
  - by rewrite bool_decide_eq_false_2 by (intros ?; done).
  - by rewrite bool_decide_eq_true_2.
Qed.

Lemma slice_to_prefix {A} (l : list A) (k : Z) : Py.slice_to l k `prefix_of` l.
Proof. unfold Py.slice_to. case_decide; apply prefix_take. Qed.

Lemma select_files_prefix : select_files X s fs paths `prefix_of` all_days.
Proof.
  rewrite select_files_cases. destruct (max_day (opts s)) as [k|]; [|done].
  case_decide; [done|apply slice_to_prefix].
Qed.

Lemma select_files_not_parquet (x : string) :
  x ∈ select_files X s fs paths → PyStr.endswith x "parquet" = false.
Proof.
  intros Hx. destruct select_files_prefix as [rest Hrest].
  assert (Hall : x ∈ all_days) by (rewrite Hrest; apply elem_of_app; by left).
  rewrite sorted_perm in Hall. unfold globbed in Hall.
  by apply list_elem_of_filter in Hall as [? _].
Qed.

End SelectionFacts.

(** X1. Whatever [max_day] is (also negative, or larger than the number of
    files), the file list is a prefix of the list of all kept files in
    sorted order, so it always holds the first days and never a file the
    glob did not return; its length is the number of kept files when
    [max_day] is [None] or [0], the smaller of [max_day] and that number
    when [max_day] is positive, and that number less [-max_day] (at least
    0) when it is negative.  No value of [max_day] raises. *)
Theorem X1_selection_is_a_prefix {table metadata sortkey : Type}
    (X : externals table metadata sortkey) (s : settings)
    (fs : filesystem) (paths : gset string) :
  let all_days := sorted (key_lt X) (natural_sort_key X) (globbed s fs paths) in
  let n := length all_days in
  select_files X s fs paths `prefix_of` all_days ∧
  (∀ x, x ∈ select_files X s fs paths →
        x ∈ glob fs paths (PyStr.join (sep fs) [INPUT_PATH s; "day_*"])) ∧
  length (select_files X s fs paths) =
    match max_day (opts s) with
    | None => n
    | Some k =>
        if decide (k = 0)%Z then n
        else if decide (0 < k)%Z then Z.to_nat k `min` n
        else n - Z.to_nat (- k)
    end.
Proof.
  cbv zeta. split; [apply select_files_prefix|]. split.
  - intros x Hx. destruct (select_files_prefix X s fs paths) as [rest Hrest].
    assert (Hall : x ∈ sorted (key_lt X) (natural_sort_key X)
                         (globbed s fs paths)).
    { rewrite Hrest. apply elem_of_app. by left. }
    rewrite sorted_perm in Hall. unfold globbed in Hall.
    by apply list_elem_of_filter in Hall as [_ ?].
  - rewrite select_files_cases. destruct (max_day (opts s)) as [k|]; [|done].
    case_decide; [done|]. unfold Py.slice_to.
    repeat case_decide; try lia; rewrite length_take; lia.
Qed.

(** X2. A path that [_convert_file] writes to or changes is never an input:
    it ends with [parquet], and the file list of any run of the graph cell
    holds no such path.  Converting into the input directory can therefore
    not make a later run pick up its own output. *)
Theorem X2_outputs_are_not_inputs {table metadata sortkey : Type}
    (X : externals table metadata sortkey)
    (path name out_dir : string) (frac_size : Q) (fs : filesystem)
    (cols : list string) (dtypes : gmap string dtype)
    (w : world table metadata) (s : settings) (paths : gset string) :
  let w' := (_convert_file X path name out_dir frac_size fs cols dtypes w).2 in
  ∀ p, disk w' !! p ≠ disk w !! p →
       PyStr.endswith p "parquet" = true ∧ p ∉ file_list (step5 X s paths).
Proof.
  cbv zeta. intros p Hp.
  assert (Hout : p = out_dir +:+ sep fs +:+ name +:+ ".parquet").
  { destruct (decide (p = out_dir +:+ sep fs +:+ name +:+ ".parquet"))
      as [|Hne]; [done|]. exfalso. apply Hp.
    rewrite convert_file_run. cbn [snd disk]. by apply lookup_insert_ne. }
  assert (Hend : PyStr.endswith p "parquet" = true).
  { rewrite Hout.
    change (name +:+ ".parquet") with (name +:+ ("." +:+ "parquet")).
    rewrite <- !str_app_assoc. apply endswith_app. }
  split; [done|]. intros Hin.
  apply (select_files_not_parquet X) in Hin. congruence.
Qed.

(** ** [sorted] keeps ties in place *)

Section Stability.
Context {A K : Type} `{EqDecision K}.
Context (lt : K → K → bool) (sort_key : A → K).
Context (Hirr : ∀ a, lt a a = false).

Lemma insert_sorted_filter (x : A) (l : list A) (k : K) :
  filter (λ y, sort_key y = k) (insert_sorted lt sort_key x l)
  = filter (λ y, sort_key y = k) (x :: l).
Proof.
  induction l as [|y l IH]; simpl; [done|].
  destruct (lt (sort_key y) (sort_key x)) eqn:Hyx; [|done].
  rewrite (filter_cons _ y), IH, !filter_cons.
  destruct (decide (sort_key y = k)) as [Hy|Hy];
    destruct (decide (sort_key x = k)) as [Hx|Hx]; try done.
  rewrite Hy, Hx, Hirr in Hyx. discriminate.
Qed.

Lemma sorted_filter (l : list A) (k : K) :
  filter (λ y, sort_key y = k) (sorted lt sort_key l)
  = filter (λ y, sort_key y = k) l.
Proof.
  induction l as [|x l IH]; simpl; [done|].
  by rewrite insert_sorted_filter, !filter_cons, IH.
Qed.

End Stability.

(** X3. [sorted(file_list, key=natural_sort_key)] is stable: for a key order
    in which no key is smaller than itself, the files that share a natural
    sort key come out in the order the glob returned them. *)
Theorem X3_sorted_is_stable {table metadata sortkey : Type}
    `{EqDecision sortkey}
    (X : externals table metadata sortkey) (s : settings)
    (fs : filesystem) (paths : gset string) (k : sortkey)
    (Hirr : ∀ a, key_lt X a a = false) :
  filter (λ x, natural_sort_key X x = k)
         (sorted (key_lt X) (natural_sort_key X) (globbed s fs paths))
  = filter (λ x, natural_sort_key X x = k) (globbed s fs paths).
Proof. by apply sorted_filter. Qed.

(** ** The task dictionary for lists of any lengths *)

Lemma build_dsk_eq (out : string) (frac : Q) (fs : filesystem)
    (fl nl : list string) (token : string) :
  build_dsk out frac fs fl nl token =
    <[KStr ("write-metadata-" +:+ token) :=
        {| t_func := F_write_metadata;
           t_args := [VList (VTuple ("convert_file-" +:+ token)
                               <$> seq 0 (length fl));
                      VFs fs; VStr out] |}]>
      (foldl (λ (dsk : gmap key task) '(i, (path, name)),
                <[KTup ("convert_file-" +:+ token) i :=
                    convert_task out frac fs path name]> dsk)
             ∅ (Py.enumerate_from 0 (zip fl nl))).
Proof.
  unfold build_dsk, Py.enumerate, Py.range. by rewrite Nat.sub_0_r.
Qed.

(** X4. The loop that fills the dictionary zips [file_list] with
    [name_list], while the metadata task lists one key per entry of
    [file_list].  For lists of any lengths the dictionary therefore holds
    a conversion task exactly for the indices below the shorter length, and
    when [name_list] is the shorter one the metadata task names keys that
    the dictionary does not have. *)
Theorem X4_build_dsk_any_lengths (out : string) (frac : Q) (fs : filesystem)
    (fl nl : list string) (token : string) :
  let d := build_dsk out frac fs fl nl token in
  let m := length fl `min` length nl in
  let c := "convert_file-" +:+ token in
  size d = m + 1 ∧
  (∀ i, i < m →
     ∃ p n, fl !! i = Some p ∧ nl !! i = Some n ∧
            d !! KTup c i = Some (convert_task out frac fs p n)) ∧
  (∀ i, m ≤ i → d !! KTup c i = None) ∧
  d !! KStr ("write-metadata-" +:+ token) =
    Some {| t_func := F_write_metadata;
            t_args := [VList (VTuple c <$> seq 0 (length fl));
                       VFs fs; VStr out] |} ∧
  (∀ i, m ≤ i → i < length fl →
     VTuple c i ∈ VTuple c <$> seq 0 (length fl) ∧ KTup c i ∉ dom d).
Proof.
  cbv zeta. rewrite build_dsk_eq.
  assert (Hlook : ∀ i,
    (<[KStr ("write-metadata-" +:+ token) :=
         {| t_func := F_write_metadata;
            t_args := [VList (VTuple ("convert_file-" +:+ token)
                                <$> seq 0 (length fl));
                       VFs fs; VStr out] |}]>
       (foldl (λ (dsk : gmap key task) '(i, (path, name)),
                 <[KTup ("convert_file-" +:+ token) i :=
                     convert_task out frac fs path name]> dsk)
              ∅ (Py.enumerate_from 0 (zip fl nl))))
      !! KTup ("convert_file-" +:+ token) i
    = match zip fl nl !! i with
      | Some (p, n) => Some (convert_task out frac fs p n)
      | None => None
      end).
  { intros i. rewrite lookup_insert_ne by done.
    rewrite (loop_lookup_tuple (convert_task out frac fs)).
    rewrite decide_True by lia. rewrite Nat.sub_0_r.
    by destruct (zip fl nl !! i) as [[??]|]. }
  assert (Hnone : ∀ i, length fl `min` length nl ≤ i →
                       zip fl nl !! i = None).
  { intros i Hi. apply lookup_ge_None. by rewrite length_zip. }
  split; [|split; [|split; [|split]]].
  - rewrite map_size_insert_None.
    + rewrite <- size_dom, (loop_dom (convert_task out frac fs)).
      rewrite dom_empty_L, (left_id_L ∅ (∪)).
      rewrite size_tuple_keys, length_zip. lia.
    + by rewrite (loop_lookup_other (convert_task out frac fs)).
  - intros i Hi.
    destruct (lookup_lt_is_Some_2 fl i) as [p Hp]; [lia|].
    destruct (lookup_lt_is_Some_2 nl i) as [n Hn]; [lia|].
    exists p, n. split; [done|]. split; [done|]. rewrite Hlook.
    by erewrite (proj2 (lookup_zip_with_Some pair _ _ i (p, n))); eauto.
  - intros i Hi. by rewrite Hlook, Hnone.
  - apply lookup_insert_eq.
  - intros i Hi Hlt. split.
    + apply list_elem_of_fmap. exists i. split; [done|]. apply elem_of_seq. lia.
    + rewrite not_elem_of_dom, Hlook. by rewrite Hnone.
Qed.

(** ** The files the training notebook reads *)

Lemma fname_relative (x : string) :
  String.prefix "/" (TrainingData.fname x) = false.
Proof. reflexivity. Qed.

Lemma day_path_eq (dir : string) (day : nat) :
  TrainingData.day_path dir day
  = dir_prefix dir +:+ "day_" +:+ PyStr.str day +:+ ".parquet".
Proof.
  unfold TrainingData.day_path, OsPath.join, dir_prefix.
  rewrite fname_relative. unfold TrainingData.fname.
  destruct (bool_decide (dir = "") || PyStr.endswith dir "/"); [done|].
  by rewrite str_app_assoc.
Qed.

Lemma day_path_inj (dir : string) : Inj (=) (=) (TrainingData.day_path dir).
Proof.
  intros d1 d2. rewrite !day_path_eq. intros H.
  apply (inj (String.app _)), (inj (String.app _)) in H.
  apply str_app_inj_r in H. by apply (inj pretty) in H.
Qed.

Lemma filter_length_le {A} (P : A → Prop) `{∀ x, Decision (P x)} (l : list A) :
  length (filter P l) ≤ length l.
Proof.
  induction l as [|x l IH]; [done|]. rewrite filter_cons.
  case_decide; simpl; lia.
Qed.

(** X5. The training list always names the 23 days 0 to 22, whatever the
    directory holds; the validation list names the days from 23 up to the
    number of day files counted, and is empty when no more than 23 are
    counted; together they name the days from 0 on without a gap, and no
    path is in both lists or twice in one. *)
Theorem X5_train_and_valid_paths (dir : string) (listing : list string) :
  let train := TrainingData.train_paths dir in
  let valid := TrainingData.valid_paths dir listing in
  let counted := TrainingData.num_days listing in
  length train = 23 ∧
  length valid = counted - 23 ∧
  counted ≤ length listing ∧
  train ++ valid = TrainingData.day_path dir <$> seq 0 (23 `max` counted) ∧
  NoDup (train ++ valid) ∧
  (∀ p, p ∈ train → p ∉ valid).
Proof.
  cbv zeta.
  unfold TrainingData.train_paths, TrainingData.valid_paths, Py.range,
    TrainingData.NUM_TRAIN_DAYS.
  assert (Happ : (TrainingData.day_path dir <$> seq 0 (23 - 0))
                 ++ (TrainingData.day_path dir
                       <$> seq 23 (TrainingData.num_days listing - 23))
                 = TrainingData.day_path dir
                     <$> seq 0 (23 `max` TrainingData.num_days listing)).
  { rewrite <- fmap_app. f_equal.
    replace (23 `max` TrainingData.num_days listing)
      with ((23 - 0) + (TrainingData.num_days listing - 23)) by lia.
    by rewrite seq_app. }
  assert (Hnodup : NoDup ((TrainingData.day_path dir <$> seq 0 (23 - 0))
                          ++ (TrainingData.day_path dir
                                <$> seq 23 (TrainingData.num_days listing - 23)))).
  { rewrite Happ. apply NoDup_fmap_2; [apply day_path_inj|apply NoDup_seq]. }
  split; [by rewrite length_fmap, length_seq|].
  split; [by rewrite length_fmap, length_seq|].
  split; [apply filter_length_le|]. split; [done|]. split; [done|].
  intros p Hp Hv. apply NoDup_app in Hnodup as (_ & Hdis & _).
  by apply (Hdis p).
Qed.

(** X8. [gen_col] raises an [IndexError] exactly when the batch is empty or
    its first element has fewer than three parts; otherwise it returns the
    first two parts of the first element, paired, with the third cast by
    [long], and nothing else of the batch matters: neither its later
    elements nor the parts after the third. *)
Theorem X8_gen_col_uses_first_element {T : Type} (long : T → T)
    (batch : list (list T)) :
  (TrainingData.gen_col long batch = None ↔
     batch = [] ∨ ∃ first rest, batch = first :: rest ∧ length first < 3) ∧
  (∀ b0 b1 b2 more rest,
     batch = (b0 :: b1 :: b2 :: more) :: rest →
     TrainingData.gen_col long batch = Some ((b0, b1), long b2)) ∧
  (∀ first rest rest',
     batch = first :: rest →
     TrainingData.gen_col long batch
       = TrainingData.gen_col long (take 3 first :: rest')).
Proof.
  split; [|split].
  - destruct batch as [|[|b0 [|b1 [|b2 more]]] rest]; cbn; split;
      try done; try (intros _; by left);
      try (intros _; right; eexists _, _; split; [done|]; cbn; lia).
    intros [?|(first & rest' & [= <- <-] & Hlen)]; [done|]. cbn in Hlen. lia.
  - by intros b0 b1 b2 more rest ->.
  - intros first rest rest' ->. by destruct first as [|b0 [|b1 [|b2 more]]].
Qed.

(** ** Which names count as day files *)

Lemma strip_spec (p s t : string) : strip p s = Some t ↔ s = p +:+ t.
Proof.
  revert s. induction p as [|a p IH]; intros s; simpl.
  - split; [by intros [= ->]|by intros ->].
  - destruct s as [|b s]; [done|]. rewrite str_app_cons.
    case_bool_decide as Hb.
    + subst b. rewrite IH. split; [by intros ->|by intros [= ->]].
    + split; [done|]. intros [= -> _]. done.
Qed.

Lemma strip_app (p t : string) : strip p (p +:+ t) = Some t.
Proof. by apply strip_spec. Qed.

Lemma residues_chain (p : string) (r : Re.regex) (s : string) :
  Re.residues (chain p r) s =
    match strip p s with
    | Some t => Re.residues r t
    | None => []
    end.
Proof.
  revert s. induction p as [|a p IH]; intros s; [done|].
  cbn [chain strip Re.residues]. destruct s as [|b s]; [done|].
  case_bool_decide; [|done]. cbn. by rewrite app_nil_r, IH.
Qed.

Lemma day_pattern_eq :
  Re.parse (TrainingData.fname "[0-9]{1,2}") =
    Some (chain "day_"
            (Re.Cat (Re.Repeat Re.Digit 1 2)
               (Re.Cat Re.Any (chain "parquet" Re.Empty)))).
Proof. reflexivity. Qed.

Lemma residues_one_or_two_digits (s : string) :
  Re.residues (Re.Repeat Re.Digit 1 2) s =
    match s with
    | String a t =>
        if Re.is_digit a
        then t :: match t with
                  | String b t' => if Re.is_digit b then [t'] else []
                  | EmptyString => []
                  end
        else []
    | EmptyString => []
    end.
Proof.
  destruct s as [|a t]; [done|]. cbn. destruct (Re.is_digit a); [|done].
  cbn. destruct t as [|b t']; [done|]. cbn. by destruct (Re.is_digit b).
Qed.

Lemma residues_tail (u : string) :
  Re.residues (Re.Cat Re.Any (chain "parquet" Re.Empty)) u =
    match u with
    | String c v =>
        if bool_decide (c = ascii_of_nat 10) then []
        else match strip "parquet" v with
             | Some t => [t]
             | None => []
             end
    | EmptyString => []
    end.
Proof.
  destruct u as [|c v]; [done|]. cbn [Re.residues].
  case_bool_decide; [done|]. cbn [mbind list_bind].
  rewrite app_nil_r, residues_chain. by destruct (strip "parquet" v).
Qed.

Lemma tail_matches (u : string) :
  Re.residues (Re.Cat Re.Any (chain "parquet" Re.Empty)) u ≠ [] ↔
  ∃ c t, c ≠ ascii_of_nat 10 ∧ u = String c ("parquet" +:+ t).
Proof.
  rewrite residues_tail. destruct u as [|c v].
  - split; [done|]. by intros (? & ? & _ & ?).
  - case_bool_decide as Hc.
    + split; [done|]. intros (? & ? & Hn & [= <- _]). done.
    + destruct (strip "parquet" v) as [t|] eqn:Hv.
      * apply strip_spec in Hv. split; [|done]. intros _. by exists c, t; subst.
      * split; [done|]. intros (c' & t & _ & [= <- ->]).
        by rewrite strip_app in Hv.
Qed.

Lemma is_day_iff (i : string) :
  TrainingData.is_day i = true ↔
  ∃ a rest c t,
    Re.is_digit a = true ∧
    (rest = "" ∨ ∃ b, Re.is_digit b = true ∧ rest = String b "") ∧
    c ≠ ascii_of_nat 10 ∧
    i = "day_" +:+ String a rest +:+ String c ("parquet" +:+ t).
Proof.
  unfold TrainingData.is_day. rewrite day_pattern_eq. unfold Re.matches.
  rewrite residues_chain.
  assert (Hne : ∀ l : list string,
            match l with [] => false | _ :: _ => true end = true ↔ l ≠ []).
  { by intros []. }
  rewrite Hne. clear Hne.
  change (Re.residues (Re.Cat ?r1 ?r2) ?s)
    with (Re.residues r1 s ≫= Re.residues r2).
  split.
  - destruct (strip "day_" i) as [j|] eqn:Hj; [|done].
    apply strip_spec in Hj. subst i.
    change (Re.residues (Re.Cat ?r1 ?r2) j)
      with (Re.residues r1 j ≫= Re.residues r2).
    rewrite residues_one_or_two_digits.
    destruct j as [|a t]; [done|]. destruct (Re.is_digit a) eqn:Ha; [|done].
    cbn [mbind list_bind]. intros Hm.
    destruct (decide (Re.residues (Re.Cat Re.Any (chain "parquet" Re.Empty)) t
                      = [])) as [Ht|Ht].
    + rewrite Ht in Hm. cbn in Hm.
      destruct t as [|b t']; [done|].
      destruct (Re.is_digit b) eqn:Hb; [|done]. cbn in Hm.
      rewrite app_nil_r in Hm. apply tail_matches in Hm as (c & u & Hc & ->).
      exists a, (String b ""), c, u. split; [done|]. split; [right; eauto|].
      done.
    + apply tail_matches in Ht as (c & u & Hc & ->).
      exists a, "", c, u. split; [done|]. split; [by left|]. done.
  - intros (a & rest & c & t & Ha & Hrest & Hc & ->).
    rewrite strip_app.
    change (Re.residues (Re.Cat ?r1 ?r2) ?s)
      with (Re.residues r1 s ≫= Re.residues r2).
    rewrite residues_one_or_two_digits.
    assert (Htail : Re.residues (Re.Cat Re.Any (chain "parquet" Re.Empty))
                      (String c ("parquet" +:+ t)) ≠ []).
    { apply tail_matches. eauto. }
    set (u := String c ("parquet" +:+ t)) in *.
    destruct Hrest as [->|(b & Hb & ->)].
    + rewrite !str_app_cons, Ha. change ("" +:+ u) with u.
      cbn [mbind list_bind]. intros Happ.
      by apply app_eq_nil in Happ as [? _].
    + rewrite !str_app_cons, Ha, Hb. change ("" +:+ u) with u.
      cbn [mbind list_bind]. intros Happ.
      apply app_eq_nil in Happ as [_ Happ].
      by apply app_eq_nil in Happ as [? _].
Qed.

(** X6. The day counter accepts exactly the names made of [day_], one or
    two digits, any one character other than a newline, [parquet], and
    then anything.  The dot of the file-name template is a wildcard in the
    pattern and the match is not anchored at the end, so a name such as
    [day_1xparquet] or [day_1.parquet.bak] counts as a day file. *)
Theorem X6_day_pattern_language (i : string) :
  TrainingData.is_day i = true ↔
  ∃ a rest c t,
    Re.is_digit a = true ∧
    (rest = "" ∨ ∃ b, Re.is_digit b = true ∧ rest = String b "") ∧
    c ≠ ascii_of_nat 10 ∧
    i = "day_" +:+ String a rest +:+ String c ("parquet" +:+ t).
Proof. apply is_day_iff. Qed.

(** *** Decimal numerals *)

Lemma pretty_N_char_digit (x : N) : Re.is_digit (pretty_N_char x) = true.
Proof. unfold pretty_N_char. by repeat case_match. Qed.

Lemma all_digits_app (a b : string) :
  all_digits (a +:+ b) = all_digits a && all_digits b.
Proof.
  induction a as [|x a IH]; [done|]. rewrite str_app_cons. cbn.
  by rewrite IH, andb_assoc.
Qed.

Lemma pretty_N_go_digits (x : N) (s : string) :
  ∃ p, pretty_N_go x s = p +:+ s ∧ all_digits p = true.
Proof.
  revert s. induction (N.lt_wf_0 x) as [x _ IH]. intros s.
  destruct (decide (x = 0)%N) as [->|Hx].
  - exists "". by rewrite pretty_N_go_0.
  - rewrite pretty_N_go_step by lia.
    destruct (IH (x `div` 10)%N) with
      (s := String (pretty_N_char (x `mod` 10)) s) as (p & Hp & Hd).
    { apply N.div_lt; lia. }
    exists (p +:+ String (pretty_N_char (x `mod` 10)) ""). split.
    + by rewrite Hp, str_app_assoc.
    + rewrite all_digits_app, Hd. cbn. by rewrite pretty_N_char_digit.
Qed.

(** from 100 on, the numeral has three digits or more *)
Lemma str_three_digits (d : nat) :
  100 ≤ d →
  ∃ q1 q2 q3 q, PyStr.str d = String q1 (String q2 (String q3 q)) ∧
                Re.is_digit q3 = true ∧ all_digits q = true.
Proof.
  intros Hd. unfold PyStr.str, pretty, pretty_nat, pretty, pretty_N.
  rewrite decide_False by lia.
  set (x := N.of_nat d). assert (100 ≤ x)%N as Hx by lia. clearbody x.
  assert (0 < x `div` 10)%N by (apply N.div_str_pos; lia).
  assert (0 < (x `div` 10) `div` 10)%N.
  { rewrite N.Div0.div_div. apply N.div_str_pos. lia. }
  rewrite 3!pretty_N_go_step by lia.
  destruct (pretty_N_go_digits (((x `div` 10) `div` 10) `div` 10)
              (String (pretty_N_char (((x `div` 10) `div` 10) `mod` 10))
                 (String (pretty_N_char ((x `div` 10) `mod` 10))
                    (String (pretty_N_char (x `mod` 10)) ""))))
    as (p & -> & Hp).
  destruct p as [|e1 [|e2 [|e3 p]]].
  - do 4 eexists. split; [reflexivity|]. cbn.
    by rewrite !pretty_N_char_digit.
  - do 4 eexists. split; [reflexivity|]. cbn.
    by rewrite !pretty_N_char_digit.
  - do 4 eexists. split; [reflexivity|]. cbn.
    by rewrite !pretty_N_char_digit.
  - cbn in Hp. apply andb_true_iff in Hp as [_ Hp].
    apply andb_true_iff in Hp as [_ Hp].
    apply andb_true_iff in Hp as [H3 Hp].
    do 4 eexists. split; [rewrite !str_app_cons; reflexivity|].
    split; [done|]. rewrite all_digits_app, Hp. cbn.
    by rewrite !pretty_N_char_digit.
Qed.

Lemma digit_not_p (a : ascii) : Re.is_digit a = true → a ≠ "p"%char.
Proof. intros Ha ->. discriminate Ha. Qed.

Lemma is_day_fname (d : nat) :
  TrainingData.is_day (TrainingData.fname (PyStr.str d)) = bool_decide (d < 100).
Proof.
  case_bool_decide as Hd.
  - assert (Hall : forallb (λ d, TrainingData.is_day
                                   (TrainingData.fname (PyStr.str d)))
                     (seq 0 100) = true) by (vm_compute; reflexivity).
    rewrite forallb_forall in Hall. apply Hall, in_seq. lia.
  - apply not_true_is_false. intros (a & rest & c & t & _ & Hrest & _ & E)%is_day_iff.
    destruct (str_three_digits d) as (q1 & q2 & q3 & q & Hq & H3 & Hds); [lia|].
    unfold TrainingData.fname in E. rewrite Hq in E.
    apply (inj (String.app "day_")) in E. rewrite !str_app_cons in E.
    change ("parquet" +:+ t) with (String "p" ("arquet" +:+ t)) in E.
    destruct Hrest as [->|(b & _ & ->)].
    + change ("" +:+ ?x) with x in E.
      apply (f_equal (String.get 2)) in E. cbn in E.
      injection E as E. by apply digit_not_p in H3.
    + rewrite !str_app_cons in E. change ("" +:+ ?x) with x in E.
      apply (f_equal (String.get 3)) in E. cbn in E.
      destruct q as [|e q]; [discriminate E|].
      rewrite str_app_cons in E. cbn in E. injection E as E.
      cbn in Hds. apply andb_true_iff in Hds as [He _].
      by apply digit_not_p in He.
Qed.

(** X7. In a directory that holds exactly the files [day_0.parquet] to
    [day_(n-1).parquet], the day counter finds [n] days when [n] is at
    most 100 and 100 days beyond that: the pattern allows two digits, so
    [day_100.parquet] and later files are not counted. *)
Theorem X7_num_days_counts_two_digit_days (n : nat) :
  TrainingData.num_days
    ((λ d, TrainingData.fname (PyStr.str d)) <$> seq 0 n) = n `min` 100 ∧
  (∀ d, TrainingData.is_day (TrainingData.fname (PyStr.str d)) = true
        ↔ d < 100).
Proof.
  split.
  - unfold TrainingData.num_days. induction n as [|n IH]; [done|].
    rewrite seq_S, fmap_app, filter_app, length_app, IH. cbn [fmap list_fmap].
    rewrite filter_cons, filter_nil, is_day_fname.
    case_bool_decide; rewrite ?decide_True, ?decide_False by done;
      cbn [length]; lia.
  - intros d. rewrite is_day_fname. apply bool_decide_eq_true.
Qed.

(** ** Running the graph *)

Section ResolveFacts.
Context {metadata : Type}.
Implicit Types data : gmap key (result metadata).

Lemma resolve_str data (x : string) :
  data !! KStr x = None → resolve data (VStr x) = Literal (VStr x).
Proof. intros H. cbn. by rewrite H. Qed.

Lemma resolve_strs data (l : list string) :
  (∀ x, data !! KStr x = None) →
  resolve data (VList (VStr <$> l)) = Values ((λ x, Literal (VStr x)) <$> l).
Proof.
  intros H. cbn. f_equal. induction l as [|x l IH]; [done|].
  cbn. by rewrite H, IH.
Qed.

Lemma resolve_tuples data (c : string) (l : list nat)
    (f : nat → result metadata) :
  (∀ i, i ∈ l → data !! KTup c i = Some (f i)) →
  resolve data (VList (VTuple c <$> l)) = Values ((λ i, Computed (f i)) <$> l).
Proof.
  intros H. cbn. f_equal. induction l as [|i l IH]; [done|].
  cbn. rewrite (H i) by (by left). cbn. f_equal. apply IH.
  intros j Hj. apply H. by right.
Qed.

Lemma as_list_strs (l : list string) :
  as_list (metadata := metadata) as_str
    (Values ((λ x, Literal (VStr x)) <$> l)) = Some l.
Proof.
  cbn. induction l as [|x l IH]; [done|]. cbn. by rewrite IH.
Qed.

Lemma as_list_metadata {A} (l : list A) (f : A → metadata) :
  as_list as_metadata (Values ((λ i, Computed (RMeta (f i))) <$> l))
  = Some (f <$> l).
Proof.
  cbn. induction l as [|x l IH]; [done|]. cbn. by rewrite IH.
Qed.

End ResolveFacts.

Section ScheduleFacts.
Context {table metadata sortkey : Type}.
Context (X : externals table metadata sortkey).

Lemma run_schedule_app (dsk : gmap key task) (l1 l2 : list key)
    (cache : gmap key (result metadata)) (w : world table metadata) :
  run_schedule X dsk (l1 ++ l2) cache w =
    match run_schedule X dsk l1 cache w with
    | Some (cache', w') => run_schedule X dsk l2 cache' w'
    | None => None
    end.
Proof.
  revert cache w. induction l1 as [|k l1 IH]; intros cache w; [done|].
  cbn. destruct (execute_task X dsk cache k w) as [[??]|]; [apply IH|done].
Qed.

Lemma apply_convert (path name out_dir : string) (frac : Q) (fs : filesystem)
    (cols : list string) (dtypes : gmap string dtype) :
  apply_func X F_convert_file
    [Literal (VStr path); Literal (VStr name); Literal (VStr out_dir);
     Literal (VFloat frac); Literal (VFs fs);
     Values ((λ x, Literal (VStr x)) <$> cols); Literal (VDict dtypes)]
  = Some (bind (_convert_file X path name out_dir frac fs cols dtypes)
            (λ md, ret (RMeta md))).
Proof.
  unfold apply_func. cbn [as_str as_float as_fs as_dict mbind option_bind].
  by rewrite as_list_strs.
Qed.

Lemma apply_write_metadata {A} (l : list A) (f : A → metadata)
    (fs : filesystem) (path : string) :
  apply_func X F_write_metadata
    [Values ((λ i, Computed (RMeta (f i))) <$> l); Literal (VFs fs);
     Literal (VStr path)]
  = Some (bind (_write_metadata X (f <$> l) fs path) (λ b, ret (RBool b))).
Proof.
  unfold apply_func. rewrite as_list_metadata.
  reflexivity.
Qed.

End ScheduleFacts.

Section StepFacts.
Context {table metadata sortkey : Type}.
Context (X : externals table metadata sortkey).

Lemma execute_task_eq (dsk : gmap key task)
    (cache : gmap key (result metadata)) (k : key) (w : world table metadata)
    (t : task) (call : M table metadata (result metadata)) :
  dsk !! k = Some t →
  Dask.get_dependencies dsk t ⊆ dom cache →
  apply_func X (t_func t)
    (resolve (filter (λ kr, kr.1 ∈ Dask.get_dependencies dsk t) cache)
       <$> t_args t) = Some call →
  execute_task X dsk cache k w = Some (<[k := (call w).1]> cache, (call w).2).
Proof.
  intros Hk Hdeps Hcall. unfold execute_task. rewrite Hk. cbn.
  rewrite decide_True by done. by rewrite Hcall.
Qed.

Lemma bind_ret_run {A B} (m : M table metadata A) (f : A → B)
    (w : world table metadata) :
  bind m (λ a, ret (f a)) w = (f (m w).1, (m w).2).
Proof. unfold bind, ret. by destruct (m w). Qed.

Lemma resolve_convert_args (data : gmap key (result metadata))
    (out : string) (frac : Q) (fs : filesystem) (p nm : string) :
  (∀ k, data !! k = None) →
  resolve data <$> t_args (convert_task out frac fs p nm) =
    [Literal (VStr p); Literal (VStr nm); Literal (VStr out);
     Literal (VFloat frac); Literal (VFs fs);
     Values ((λ x, Literal (VStr x)) <$> columns);
     Literal (VDict column_dtypes)].
Proof.
  intros H. unfold convert_task. cbn [t_args fmap list_fmap].
  by rewrite !resolve_str, resolve_strs by done.
Qed.

Lemma compute_sync_eq (d : Delayed) (dsk : gmap key task) (order : list key)
    (w w' : world table metadata) (cache : gmap key (result metadata))
    (r : result metadata) :
  layers (d_dask d) !! d_key d = Some dsk →
  run_schedule X dsk order ∅ w = Some (cache, w') →
  cache !! KStr (d_key d) = Some r →
  compute_sync X d order w = Some (r, w').
Proof.
  intros Hd Hrun Hr. unfold compute_sync. rewrite Hd. cbn.
  rewrite Hrun. by rewrite Hr.
Qed.

Lemma write_metadata_true (l : list metadata) (fs : filesystem)
    (path : string) (w : world table metadata) :
  (_write_metadata X l fs path w).1 = true.
Proof. rewrite write_metadata_run. by destruct l as [|? [|??]]. Qed.

Lemma write_metadata_disk (l : list metadata) (fs : filesystem)
    (path : string) (w : world table metadata) :
  disk (_write_metadata X l fs path w).2 =
    match l with
    | [] => disk w
    | [md] => <[path +:+ sep fs +:+ "_metadata" := MetaFile md]> (disk w)
    | _ :: _ :: _ =>
        <[path +:+ sep fs +:+ "_metadata" :=
            MetaFile (merge_parquet_filemetadata X l)]> (disk w)
    end.
Proof. rewrite write_metadata_run. by destruct l as [|? [|??]]. Qed.

End StepFacts.

Section Pipeline.
Context {table metadata sortkey : Type}.
Context (X : externals table metadata sortkey).
Context (s : settings) (paths : gset string) (w : world table metadata).

Local Abbreviation g := (step5 X s paths).
Local Abbreviation n := (length (file_list (step5 X s paths))).
Local Abbreviation c := (convert_file_name (step5 X s paths)).
Local Abbreviation state :=
  (converted X s (fs (step5 X s paths)) w (file_list (step5 X s paths))
     (name_list (step5 X s paths)) (convert_file_name (step5 X s paths))).

Context (Hnames : ∀ l fs, length (analyze_paths X l fs).2 = length l).
Context (Hfresh : write_meta_name g ∉
                    OUTPUT_PATH s :: file_list g ++ name_list g).
Context (Hnodup : NoDup (name_list g)).
Context (Hlocal : reads_only_its_path X).

Lemma name_list_length : length (name_list g) = n.
Proof. apply Hnames. Qed.

Lemma file_lookup (i : nat) :
  i < n → file_list g !! i = Some (file_list g !!! i).
Proof. apply list_lookup_lookup_total_lt. Qed.

Lemma name_lookup (i : nat) :
  i < n → name_list g !! i = Some (name_list g !!! i).
Proof.
  intros Hi. apply list_lookup_lookup_total_lt. by rewrite name_list_length.
Qed.

Lemma out_path_parquet (fs : filesystem) (name : string) :
  PyStr.endswith (out_path s fs name) "parquet" = true.
Proof.
  unfold out_path.
  change (name +:+ ".parquet") with (name +:+ ("." +:+ "parquet")).
  rewrite <- !str_app_assoc. apply endswith_app.
Qed.

Lemma out_path_inj (fs : filesystem) : Inj (=) (=) (out_path s fs).
Proof.
  intros a b H. unfold out_path in H.
  apply (inj (String.app _)), (inj (String.app _)) in H.
  by apply str_app_inj_r in H.
Qed.

Lemma out_of_inj (i j : nat) :
  i < n → j < n →
  out_path s (fs g) (name_list g !!! i) = out_path s (fs g) (name_list g !!! j) →
  i = j.
Proof.
  intros Hi Hj H%out_path_inj.
  eapply (NoDup_lookup (name_list g)); [done|by apply name_lookup|].
  rewrite H. by apply name_lookup.
Qed.

Lemma input_not_output (i : nat) (name : string) :
  i < n → file_list g !!! i ≠ out_path s (fs g) name.
Proof.
  intros Hi E.
  assert (Hin : file_list g !!! i ∈ file_list g).
  { eapply list_elem_of_lookup_2. by apply file_lookup. }
  apply (select_files_not_parquet X) in Hin.
  rewrite E, out_path_parquet in Hin. discriminate.
Qed.

Lemma metadata_not_output (fs : filesystem) (name : string) :
  OUTPUT_PATH s +:+ sep fs +:+ "_metadata" ≠ out_path s fs name.
Proof.
  unfold out_path. intros E.
  apply (inj (String.app _)), (inj (String.app _)) in E.
  assert (H : PyStr.endswith (name +:+ ".parquet") "parquet" = true).
  { change (name +:+ ".parquet") with (name +:+ ("." +:+ "parquet")).
    rewrite <- str_app_assoc. apply endswith_app. }
  rewrite <- E in H. discriminate H.
Qed.

Lemma state_start : state [] ∅ w.
Proof.
  split; [|split].
  - intros [k|c' i]; rewrite lookup_empty; [done|].
    rewrite decide_False; [done|]. intros [_ Hi]. by apply elem_of_nil in Hi.
  - intros i Hi. by apply elem_of_nil in Hi.
  - done.
Qed.

(** one conversion task *)
Lemma conversion_step (done : list nat) (i : nat)
    (cache : gmap key (result metadata)) (w1 : world table metadata) :
  i < n → i ∉ done → (∀ j, j ∈ done → j < n) →
  state done cache w1 →
  ∃ cache' w2,
    execute_task X (dsk g) cache (KTup c i) w1 = Some (cache', w2) ∧
    state (done ++ [i]) cache' w2.
Proof.
  intros Hi Hnew Hdone (Hcache & Hout & Hrest).
  pose proof (file_lookup i Hi) as Hp. pose proof (name_lookup i Hi) as Hn.
  set (p := file_list g !!! i) in *. set (nm := name_list g !!! i) in *.
  assert (Ht : dsk g !! KTup c i =
               Some (convert_task (OUTPUT_PATH s) (frac_size (opts s))
                       (fs g) p nm)).
  { rewrite dsk_lookup_tuple, decide_True by done.
    by erewrite (proj2 (lookup_zip_with_Some pair _ _ i (p, nm))); eauto. }
  assert (Hdeps : Dask.get_dependencies (dsk g)
                    (convert_task (OUTPUT_PATH s) (frac_size (opts s))
                       (fs g) p nm) = ∅).
  { apply convert_task_independent; [done| |];
      by eapply list_elem_of_lookup_2. }
  eexists _, _. split.
  { eapply execute_task_eq; [exact Ht| |].
    - rewrite Hdeps. apply empty_subseteq.
    - rewrite Hdeps, resolve_convert_args.
      + apply apply_convert.
      + intros k. apply map_lookup_filter_None. right. intros r _ Hk.
        by apply not_elem_of_empty in Hk. }
  rewrite bind_ret_run, convert_file_run. cbv zeta. cbn [fst snd].
  change (OUTPUT_PATH s +:+ sep (fs g) +:+ nm +:+ ".parquet")
    with (out_path s (fs g) nm).
  assert (Hchunks :
    GPUFileIterator X (<[out_path s (fs g) nm := Parquet []]> (disk w1))
      {| it_path := p; it_engine := "csv"; it_fs := fs g;
         it_names := columns; it_gpu_memory_frac := frac_size (opts s);
         it_sep := tab; it_dtypes := column_dtypes |}
    = GPUFileIterator X (disk w) (reader_args s (fs g) p)).
  { apply Hlocal. cbn [it_path].
    rewrite lookup_insert_ne by (apply not_eq_sym; by apply input_not_output).
    apply Hrest. intros j Hj. by apply input_not_output. }
  rewrite Hchunks. split; [|split].
  - intros [k|c' j].
    + rewrite lookup_insert_ne by done. apply (Hcache (KStr k)).
    + destruct (decide (KTup c i = KTup c' j)) as [[= <- <-]|Hne].
      * rewrite lookup_insert_eq, decide_True; [done|].
        split; [done|]. apply elem_of_app. right. by left.
      * rewrite lookup_insert_ne by done. rewrite (Hcache (KTup c' j)).
        destruct (decide (c' = c ∧ j ∈ done)) as [[-> Hj]|Hnot].
        -- rewrite decide_True; [done|]. split; [done|].
           apply elem_of_app. by left.
        -- rewrite decide_False; [done|]. intros [-> Hj].
           apply elem_of_app in Hj as [Hj|Hj%list_elem_of_singleton].
           ++ apply Hnot. split; [reflexivity|exact Hj].
           ++ subst j. apply Hne. reflexivity.
  - intros j Hj. cbn [disk].
    apply elem_of_app in Hj as [Hj|Hj%list_elem_of_singleton].
    + rewrite lookup_insert_ne; [by apply Hout|].
      intros E. apply out_of_inj in E; [|done|by apply Hdone].
      subst j. by apply Hnew.
    + subst j. apply lookup_insert_eq.
  - intros q Hq. cbn [disk]. rewrite lookup_insert_ne.
    + apply Hrest. intros j Hj. apply Hq, elem_of_app. by left.
    + apply not_eq_sym, Hq, elem_of_app. right. by left.
Qed.

(** the conversion tasks, in any order *)
Lemma conversions_run (order done : list nat)
    (cache : gmap key (result metadata)) (w1 : world table metadata) :
  NoDup (done ++ order) → (∀ j, j ∈ done ++ order → j < n) →
  state done cache w1 →
  ∃ cache' w2,
    run_schedule X (dsk g) (KTup c <$> order) cache w1 = Some (cache', w2) ∧
    state (done ++ order) cache' w2.
Proof.
  revert done cache w1.
  induction order as [|i order IH]; intros done cache w1 Hnd Hlt Hst.
  - exists cache, w1. by rewrite app_nil_r.
  - destruct (conversion_step done i cache w1) as (cache1 & w2 & Hrun & Hst1).
    + apply Hlt, elem_of_app. right. by left.
    + by apply NoDup_app in Hnd as (_ & Hdis & _); intros Hi;
        apply (Hdis i Hi); left.
    + intros j Hj. apply Hlt, elem_of_app. by left.
    + done.
    + destruct (IH (done ++ [i]) cache1 w2) as (cache2 & w3 & Hrun2 & Hst2).
      * by rewrite <- app_assoc.
      * intros j. rewrite <- app_assoc. apply Hlt.
      * done.
      * exists cache2, w3. cbn [fmap list_fmap run_schedule].
        rewrite Hrun. split; [done|]. by rewrite <- app_assoc in Hst2.
Qed.

Lemma metadata_list :
  (λ i, metadata_of X s (fs g) (disk w) (file_list g !!! i)
          (name_list g !!! i)) <$> seq 0 n
  = zip_with (metadata_of X s (fs g) (disk w)) (file_list g) (name_list g).
Proof.
  apply list_eq. intros i. rewrite list_lookup_fmap, lookup_zip_with.
  destruct (decide (i < n)) as [Hi|Hi].
  - rewrite lookup_seq_lt by done.
    by rewrite file_lookup, name_lookup by done.
  - rewrite lookup_seq_ge by lia.
    by rewrite (lookup_ge_None_2 (file_list g)) by lia.
Qed.

Lemma conversion_key_needed (i : nat) :
  i < n →
  KTup c i ∈ dom (dsk g) ∖ {[ KStr (write_meta_name g) ]}.
Proof.
  intros Hi. apply elem_of_difference. split.
  - apply tuple_key_in_dsk. split; [done|].
    rewrite length_zip, name_list_length. lia.
  - intros Hk%elem_of_singleton. discriminate Hk.
Qed.

(** the metadata task, once every conversion task has run *)
Lemma merge_step (order : list nat) (cache : gmap key (result metadata))
    (w2 : world table metadata) :
  order ≡ₚ seq 0 n → state order cache w2 →
  let mds := zip_with (metadata_of X s (fs g) (disk w))
               (file_list g) (name_list g) in
  execute_task X (dsk g) cache (KStr (write_meta_name g)) w2 =
    Some (<[KStr (write_meta_name g) :=
              RBool (_write_metadata X mds (fs g) (OUTPUT_PATH s) w2).1]> cache,
          (_write_metadata X mds (fs g) (OUTPUT_PATH s) w2).2).
Proof.
  intros Hperm (Hcache & _ & _). cbv zeta. rewrite <- metadata_list.
  assert (Hin : ∀ i, i < n →
            cache !! KTup c i =
              Some (RMeta (metadata_of X s (fs g) (disk w)
                             (file_list g !!! i) (name_list g !!! i)))).
  { intros i Hi. rewrite (Hcache (KTup c i)), decide_True; [done|].
    split; [done|]. rewrite Hperm. apply elem_of_seq. lia. }
  assert (Hdeps : Dask.get_dependencies (dsk g) (merge_task X s paths)
                  ⊆ dom cache).
  { rewrite merge_task_dependencies by done.
    intros k [Hdom Hne]%elem_of_difference. destruct k as [k|c' i].
    + apply string_key_in_dsk in Hdom. subst k. exfalso. apply Hne.
      by apply elem_of_singleton.
    + apply tuple_key_in_dsk in Hdom as [-> Hi].
      rewrite length_zip, name_list_length in Hi.
      apply elem_of_dom. rewrite Hin by lia. by eexists. }
  assert (Hcall :
    apply_func X (t_func (merge_task X s paths))
      (resolve (filter (λ kr, kr.1 ∈ Dask.get_dependencies (dsk g)
                                       (merge_task X s paths)) cache)
         <$> t_args (merge_task X s paths))
    = Some (bind (_write_metadata X
                    ((λ i, metadata_of X s (fs g) (disk w)
                             (file_list g !!! i) (name_list g !!! i))
                       <$> seq 0 n) (fs g) (OUTPUT_PATH s))
              (λ b, ret (RBool b)))).
  { rewrite merge_task_dependencies by done.
    unfold merge_task. cbv zeta. cbn [t_func t_args fmap list_fmap].
    rewrite (resolve_tuples _ c (seq 0 n)
               (λ i, RMeta (metadata_of X s (fs g) (disk w)
                              (file_list g !!! i) (name_list g !!! i)))).
    + rewrite resolve_str.
      * apply (apply_write_metadata X (seq 0 n)
                 (λ i, metadata_of X s (fs g) (disk w)
                         (file_list g !!! i) (name_list g !!! i))).
      * apply map_lookup_filter_None. left. apply (Hcache (KStr _)).
    + intros i Hi%elem_of_seq. apply map_lookup_filter_Some_2.
      * apply Hin. lia.
      * apply conversion_key_needed. lia. }
  rewrite (execute_task_eq X _ _ _ w2 _ _ (dsk_lookup_merge X s paths)
             Hdeps Hcall).
  by rewrite bind_ret_run.
Qed.

(** the whole graph, with the conversion tasks in any order *)
Lemma graph_run (order : list nat) :
  order ≡ₚ seq 0 n →
  let mds := zip_with (metadata_of X s (fs g) (disk w))
               (file_list g) (name_list g) in
  let metadata_path := OUTPUT_PATH s +:+ sep (fs g) +:+ "_metadata" in
  ∃ w',
    compute_sync X (conversion_delayed g)
      ((KTup c <$> order) ++ [KStr (write_meta_name g)]) w
      = Some (RBool true, w') ∧
    (∀ i path name,
       file_list g !! i = Some path → name_list g !! i = Some name →
       disk w' !! out_path s (fs g) name =
         Some (Parquet (GPUFileIterator X (disk w)
                          (reader_args s (fs g) path)))) ∧
    disk w' !! metadata_path =
      match mds with
      | [] => disk w !! metadata_path
      | [md] => Some (MetaFile md)
      | _ :: _ :: _ => Some (MetaFile (merge_parquet_filemetadata X mds))
      end ∧
    (∀ p, p ≠ metadata_path →
          (∀ name, name ∈ name_list g → p ≠ out_path s (fs g) name) →
          disk w' !! p = disk w !! p).
Proof.
  intros Hperm. cbv zeta.
  destruct (conversions_run order [] ∅ w)
    as (cache & w2 & Hrun & Hst).
  { cbn. rewrite Hperm. apply NoDup_seq. }
  { intros j. cbn. rewrite Hperm. intros Hj%elem_of_seq. lia. }
  { apply state_start. }
  cbn [app] in Hst.
  pose proof (merge_step order cache w2 Hperm Hst) as Hmerge.
  cbv zeta in Hmerge. rewrite write_metadata_true in Hmerge.
  destruct Hst as (_ & Hout & Hrest).
  eexists. split; [|split; [|split]].
  - eapply (compute_sync_eq X _ (dsk g)).
    + apply lookup_singleton_eq.
    + rewrite run_schedule_app, Hrun. cbn [run_schedule].
      rewrite Hmerge. reflexivity.
    + apply lookup_insert_eq.
  - intros i path name Hp Hn.
    assert (Hi : i < n) by (by eapply lookup_lt_Some).
    apply list_lookup_total_correct in Hp, Hn. subst path name.
    rewrite write_metadata_disk.
    assert (Hgoal : disk w2 !! out_path s (fs g) (name_list g !!! i) =
                    Some (Parquet (GPUFileIterator X (disk w)
                            (reader_args s (fs g) (file_list g !!! i))))).
    { apply Hout. rewrite Hperm. apply elem_of_seq. lia. }
    destruct (zip_with _ _ _) as [|? [|??]]; [done|..];
      rewrite lookup_insert_ne by apply metadata_not_output; done.
  - rewrite write_metadata_disk.
    destruct (zip_with _ _ _) as [|? [|??]];
      [|apply lookup_insert_eq|apply lookup_insert_eq].
    apply Hrest. intros j _. apply metadata_not_output.
  - intros p Hp Hnames'. rewrite write_metadata_disk.
    assert (Hgoal : disk w2 !! p = disk w !! p).
    { apply Hrest. intros j Hj. apply Hnames'.
      eapply list_elem_of_lookup_2, name_lookup.
      rewrite Hperm in Hj. apply elem_of_seq in Hj. lia. }
    destruct (zip_with _ _ _) as [|? [|??]]; [done|..];
      rewrite lookup_insert_ne by (by apply not_eq_sym); done.
Qed.

End Pipeline.

(** X9. Running the graph under the synchronous scheduler, with the
    conversion tasks in any order and the metadata task last, returns
    [True] and leaves, for every input, the file [OUTPUT_PATH/name.parquet]
    holding exactly the chunks read from that input as it was before the
    run; [_metadata] then holds the metadata of the single conversion, or
    the merge of all of them in the order of the file list, and is left
    alone when there is no input; no other path changes.  This needs one
    name per path, names without repetition, an iterator that reads only
    the file it is given, and string arguments that are not the metadata
    key. *)
Theorem X9_graph_run_outcome {table metadata sortkey : Type}
    (X : externals table metadata sortkey) (s : settings)
    (paths : gset string) (w : world table metadata) (order : list nat)
    (Hnames : ∀ l fs, length (analyze_paths X l fs).2 = length l)
    (Hfresh : write_meta_name (step5 X s paths) ∉
                OUTPUT_PATH s :: file_list (step5 X s paths)
                              ++ name_list (step5 X s paths))
    (Hnodup : NoDup (name_list (step5 X s paths)))
    (Hlocal : reads_only_its_path X)
    (Horder : order ≡ₚ seq 0 (length (file_list (step5 X s paths)))) :
  let g := step5 X s paths in
  let mds := zip_with (metadata_of X s (fs g) (disk w))
               (file_list g) (name_list g) in
  let metadata_path := OUTPUT_PATH s +:+ sep (fs g) +:+ "_metadata" in
  ∃ w',
    compute_sync X (conversion_delayed g)
      ((KTup (convert_file_name g) <$> order) ++ [KStr (write_meta_name g)]) w
      = Some (RBool true, w') ∧
    (∀ i path name,
       file_list g !! i = Some path → name_list g !! i = Some name →
       disk w' !! out_path s (fs g) name =
         Some (Parquet (GPUFileIterator X (disk w)
                          (reader_args s (fs g) path)))) ∧
    disk w' !! metadata_path =
      match mds with
      | [] => disk w !! metadata_path
      | [md] => Some (MetaFile md)
      | _ :: _ :: _ => Some (MetaFile (merge_parquet_filemetadata X mds))
      end ∧
    (∀ p, p ≠ metadata_path →
          (∀ name, name ∈ name_list g → p ≠ out_path s (fs g) name) →
          disk w' !! p = disk w !! p).
Proof. by apply graph_run. Qed.

(** X10. The order in which the scheduler runs the conversion tasks does
    not matter: under the same conditions, two runs from the same files
    with different orders both succeed, return the same result and leave
    the same files. *)
Theorem X10_order_of_tasks_is_irrelevant {table metadata sortkey : Type}
    (X : externals table metadata sortkey) (s : settings)
    (paths : gset string) (w : world table metadata) (order1 order2 : list nat)
    (Hnames : ∀ l fs, length (analyze_paths X l fs).2 = length l)
    (Hfresh : write_meta_name (step5 X s paths) ∉
                OUTPUT_PATH s :: file_list (step5 X s paths)
                              ++ name_list (step5 X s paths))
    (Hnodup : NoDup (name_list (step5 X s paths)))
    (Hlocal : reads_only_its_path X)
    (Horder1 : order1 ≡ₚ seq 0 (length (file_list (step5 X s paths))))
    (Horder2 : order2 ≡ₚ seq 0 (length (file_list (step5 X s paths)))) :
  let g := step5 X s paths in
  let schedule order :=
    (KTup (convert_file_name g) <$> order) ++ [KStr (write_meta_name g)] in
  ∃ r w1 w2,
    compute_sync X (conversion_delayed g) (schedule order1) w = Some (r, w1) ∧
    compute_sync X (conversion_delayed g) (schedule order2) w = Some (r, w2) ∧
    disk w1 = disk w2.
Proof.
  cbv zeta.
  destruct (graph_run X s paths w Hnames Hfresh Hnodup Hlocal order1 Horder1)
    as (w1 & Hrun1 & Hout1 & Hmeta1 & Hrest1).
  destruct (graph_run X s paths w Hnames Hfresh Hnodup Hlocal order2 Horder2)
    as (w2 & Hrun2 & Hout2 & Hmeta2 & Hrest2).
  exists (RBool true), w1, w2. split; [done|]. split; [done|].
  apply map_eq. intros p.
  destruct (decide (p = OUTPUT_PATH s +:+ sep (fs (step5 X s paths))
                          +:+ "_metadata")) as [->|Hp].
  { by rewrite Hmeta1, Hmeta2. }
  destruct (decide (Exists (λ name, p = out_path s (fs (step5 X s paths)) name)
                      (name_list (step5 X s paths)))) as [Hex|Hex].
  - apply Exists_exists in Hex as (name & Hin & ->).
    apply list_elem_of_lookup_1 in Hin as [i Hi].
    destruct (lookup_lt_is_Some_2 (file_list (step5 X s paths)) i)
      as [path Hpath].
    { apply lookup_lt_Some in Hi.
      assert (length (name_list (step5 X s paths))
              = length (file_list (step5 X s paths))) as <- by apply Hnames.
      done. }
    by rewrite (Hout1 i path name), (Hout2 i path name).
  - rewrite Hrest1, Hrest2; try done;
      intros name Hin ->; apply Hex, Exists_exists; eauto.
Qed.

(** ** The further properties on the small installation *)

(** X3, on a directory with two names of the same key. *)
Lemma X3_sorted_is_stable_witness :
  (∀ a, key_lt Demo.X a a = false) ∧
  globbed Demo.settings0 Demo.local_fs Demo2.tied
    = ["/data/day_1"; "/data/day_01"; "/data/day_0"] ∧
  sorted (key_lt Demo.X) (natural_sort_key Demo.X)
         (globbed Demo.settings0 Demo.local_fs Demo2.tied)
    = ["/data/day_0"; "/data/day_1"; "/data/day_01"] ∧
  filter (λ x, natural_sort_key Demo.X x = 1%N)
         (sorted (key_lt Demo.X) (natural_sort_key Demo.X)
            (globbed Demo.settings0 Demo.local_fs Demo2.tied))
    = filter (λ x, natural_sort_key Demo.X x = 1%N)
             (globbed Demo.settings0 Demo.local_fs Demo2.tied).
Proof.
  assert (Hirr : ∀ a, key_lt Demo.X a a = false).
  { intros a. apply N.ltb_irrefl. }
  split; [exact Hirr|]. split; [by vm_compute|]. split; [by vm_compute|].
  exact (X3_sorted_is_stable Demo.X Demo.settings0 Demo.local_fs Demo2.tied
           1%N Hirr).
Defined.

Lemma demo_names :
  ∀ l fs, length (analyze_paths Demo.X l fs).2 = length l.
Proof. intros. apply length_fmap. Qed.

Lemma demo_fresh :
  write_meta_name Demo.cell0 ∉
    OUTPUT_PATH Demo.settings0
      :: file_list Demo.cell0 ++ name_list Demo.cell0.
Proof. apply (bool_decide_unpack _). by vm_compute. Qed.

Lemma demo_names_distinct : NoDup (name_list Demo.cell0).
Proof. apply (bool_decide_unpack _). by vm_compute. Qed.

Lemma demo_reads_only_its_path : reads_only_its_path Demo.X.
Proof.
  intros d d' a H.
  exact (f_equal (λ o : option (content Demo.table Demo.metadata),
                    match o with
                    | Some (Raw s) =>
                        (λ line, [line]) <$> PyStr.split Demo.newline s
                    | _ => []
                    end) H).
Qed.

Lemma demo_three_files : length (file_list Demo.cell0) = 3.
Proof. by vm_compute. Qed.

Lemma demo_order : Demo2.order ≡ₚ seq 0 (length (file_list Demo.cell0)).
Proof.
  rewrite demo_three_files. apply (Permutation_cons_app [0; 1] [] 2). done.
Qed.

Lemma demo_order' : Demo2.order' ≡ₚ seq 0 (length (file_list Demo.cell0)).
Proof.
  rewrite demo_three_files. apply (Permutation_cons_app [0] [2] 1).
  apply (Permutation_cons_app [0] [] 2). done.
Qed.

(** X9, on the small installation, with the last day converted first. *)
Lemma X9_graph_run_outcome_witness :
  (∀ l fs, length (analyze_paths Demo.X l fs).2 = length l) ∧
  (write_meta_name Demo.cell0 ∉
     OUTPUT_PATH Demo.settings0
       :: file_list Demo.cell0 ++ name_list Demo.cell0) ∧
  NoDup (name_list Demo.cell0) ∧
  reads_only_its_path Demo.X ∧
  Demo2.order ≡ₚ seq 0 (length (file_list Demo.cell0)) ∧
  ∃ w',
    compute_sync Demo.X (conversion_delayed Demo.cell0)
      ((KTup (convert_file_name Demo.cell0) <$> Demo2.order)
         ++ [KStr (write_meta_name Demo.cell0)]) Demo.start
      = Some (RBool true, w') ∧
    disk w' !! "/out/day_10.parquet" = Some (Parquet [["1"]; ["2"]]) ∧
    disk w' !! "/out/_metadata" =
      Some (MetaFile ["day_0.parquet:3"; "day_2.parquet:1";
                      "day_10.parquet:2"]).
Proof.
  split; [exact demo_names|]. split; [exact demo_fresh|].
  split; [exact demo_names_distinct|].
  split; [exact demo_reads_only_its_path|]. split; [exact demo_order|].
  destruct (X9_graph_run_outcome Demo.X Demo.settings0 (dom Demo.files)
              Demo.start Demo2.order demo_names demo_fresh
              demo_names_distinct demo_reads_only_its_path demo_order)
    as (w' & Hrun & Hout & Hmeta & _).
  exists w'. split; [exact Hrun|]. split.
  - exact (Hout 2 "/data/day_10" "day_10" eq_refl eq_refl).
  - exact Hmeta.
Defined.

(** X10, on the small installation, for two orders. *)
Lemma X10_order_of_tasks_is_irrelevant_witness :
  Demo2.order ≠ Demo2.order' ∧
  ∃ r w1 w2,
    compute_sync Demo.X (conversion_delayed Demo.cell0)
      ((KTup (convert_file_name Demo.cell0) <$> Demo2.order)
         ++ [KStr (write_meta_name Demo.cell0)]) Demo.start = Some (r, w1) ∧
    compute_sync Demo.X (conversion_delayed Demo.cell0)
      ((KTup (convert_file_name Demo.cell0) <$> Demo2.order')
         ++ [KStr (write_meta_name Demo.cell0)]) Demo.start = Some (r, w2) ∧
    disk w1 = disk w2.
Proof.
  split; [discriminate|].
  exact (X10_order_of_tasks_is_irrelevant Demo.X Demo.settings0
           (dom Demo.files) Demo.start Demo2.order Demo2.order'
           demo_names demo_fresh demo_names_distinct
           demo_reads_only_its_path demo_order demo_order').
Defined.


(** X2, on the small installation: the file written for [day_2]. *)
Lemma X2_outputs_are_not_inputs_witness :
  let w' := (_convert_file Demo.X "/data/day_2" "day_2" "/out" (15 # 100)
               Demo.local_fs columns column_dtypes Demo.start).2 in
  disk w' !! "/out/day_2.parquet" ≠ disk Demo.start !! "/out/day_2.parquet" ∧
  PyStr.endswith "/out/day_2.parquet" "parquet" = true ∧
  "/out/day_2.parquet" ∉ file_list Demo.cell0.
Proof.
  cbv zeta.
  assert (H : disk (_convert_file Demo.X "/data/day_2" "day_2" "/out"
                      (15 # 100) Demo.local_fs columns column_dtypes
                      Demo.start).2 !! "/out/day_2.parquet"
              ≠ disk Demo.start !! "/out/day_2.parquet")
    by (vm_compute; discriminate).
  split; [exact H|].
  exact (X2_outputs_are_not_inputs Demo.X "/data/day_2" "day_2" "/out"
           (15 # 100) Demo.local_fs columns column_dtypes Demo.start
           Demo.settings0 (dom Demo.files) "/out/day_2.parquet" H).
Defined.

Module MoreRuns.

Example names_counted_as_days :
  TrainingData.is_day
    <$> ["day_0.parquet"; "day_12.parquet"; "day_100.parquet";
         "day_1xparquet"; "day_1.parquet.bak"; "xday_1.parquet";
         "day_.parquet"; "day_0"]
  = [true; true; false; true; true; false; false; false].
Proof. vm_compute. done. Qed.

Example validation_days_of_26 :
  TrainingData.valid_paths "/d"
    ((λ d, TrainingData.fname (PyStr.str d)) <$> seq 0 26)
  = ["/d/day_23.parquet"; "/d/day_24.parquet"; "/d/day_25.parquet"].
Proof. vm_compute. done. Qed.

Example no_validation_days_of_20 :
  TrainingData.valid_paths "/d/"
    ((λ d, TrainingData.fname (PyStr.str d)) <$> seq 0 20) = [] ∧
  TrainingData.train_paths "/d/" !! 22 = Some "/d/day_22.parquet".
Proof. vm_compute. done. Qed.

Example graph_run_files :
  (λ r, map_to_list (disk r.2))
    <$> compute_sync Demo.X (conversion_delayed Demo.cell0)
          ((KTup (convert_file_name Demo.cell0) <$> Demo2.order)
             ++ [KStr (write_meta_name Demo.cell0)])
          {| disk := ∅; trace := [] |}
  = Some [("/out/_metadata",
           MetaFile ["day_0.parquet:0"; "day_2.parquet:0";
                     "day_10.parquet:0"]);
          ("/out/day_10.parquet", Parquet []);
          ("/out/day_2.parquet", Parquet []);
          ("/out/day_0.parquet", Parquet [])].
Proof. vm_compute. done. Qed.

End MoreRuns.

